(** * Focus/rest session controller of the Study Assistant sketches

    A shallow embedding of the Arduino sketches of the repository:

    - [FocusRest]: the "Focus/Rest System (Full Version)" sketch, whose
      [loop] has the red warning state ([waitingForUserToLeave]) before
      the real rest mode;
    - [FinalVersion]: the duration model of the "Study Assistant - Focus &
      Rest System (Final Version)" sketch, which has the same [loop] and a
      different [calculateRecommendedTime];
    - [FeedbackStation]: the "Focused Study Feedback Station" sketch, the
      earlier variant without warning state and with a rate-limited status
      color.

    Conventions.  [unsigned long] is 32 bits wide on the board: values are
    integers in [Z] and every [unsigned long] operation of the sketch is
    written with its wrap-around ([add32], [sub32], [mul32]).  The [float]
    lux reading is a rational number: the sketch only compares it with
    integer constants, and such a comparison is exact on every finite
    reading.  Each call of [millis()] in [loop] is an input of its own
    (record [Millis]), since the clock advances while [loop] runs.  The
    LCD text with its page rotation, the LCD backlight and the serial log
    never feed back into the session state and are left out; the two LED
    strips are the output. *)

From Stdlib Require Import ZArith QArith Bool List Lia.
Import ListNotations.

Local Open Scope Z_scope.

(** ** Machine arithmetic *)

Definition ULONG_MOD : Z := 2 ^ 32.

Definition wrap32 (x : Z) : Z := x mod ULONG_MOD.
Definition add32 (a b : Z) : Z := wrap32 (a + b).
Definition sub32 (a b : Z) : Z := wrap32 (a - b).
Definition mul32 (a b : Z) : Z := wrap32 (a * b).

(** Comparisons of the [float] lux value with an [int] constant. *)
Definition Qgeb (x : Q) (n : Z) : bool := Qle_bool (inject_Z n) x.
Definition Qltb (x : Q) (n : Z) : bool := negb (Qle_bool (inject_Z n) x).
Definition Qgtb (x : Q) (n : Z) : bool := negb (Qle_bool x (inject_Z n)).

(** ** Configurable thresholds (the same in every sketch) *)

Definition PRESENT_DISTANCE : Z := 80.
Definition TOO_CLOSE_DISTANCE : Z := 20.
Definition MIN_LUX : Z := 80.
Definition MAX_NOISE : Z := 300.

(** ** Sensor snapshot *)

Section Ultrasonic.
(** [duration * 0.034 / 2] converted to [long]: a floating point
    computation on the echo time, kept abstract. *)
Variable echo_to_cm : Z -> Z.

(** [getDistanceCM]: [pulseIn] returns 0 on its 30 ms timeout, and the
    sketch hands that 0 on as the distance. *)
Definition getDistanceCM (duration : Z) : Z :=
  if duration =? 0 then 0 else echo_to_cm duration.
End Ultrasonic.

Definition validDistance (distance : Z) : bool :=
  (5 <? distance) && (distance <? 200).
Definition userNear (distance : Z) : bool :=
  validDistance distance && (distance <? PRESENT_DISTANCE).
Definition userTooClose (distance : Z) : bool :=
  validDistance distance && (distance <? TOO_CLOSE_DISTANCE).
Definition tooDark (lux : Q) : bool := Qltb lux MIN_LUX.
Definition tooNoisy (noiseVal : Z) : bool := MAX_NOISE <? noiseVal.

(** The distance argument that [loop] hands to [calculateRecommendedTime]. *)
Definition distanceArg (distance : Z) : Z :=
  if validDistance distance then distance else 999.

(** ** Outputs of the sketches *)

(** What the sketches push to the two LED strips. *)
Inductive Output : Type :=
| StatusShow (r g b : Z)   (* [statusStrip.show()] after filling with (r,g,b) *)
| EnvShow (on : bool).     (* [envStrip.show()] after [setEnvironmentLight(on)] *)

Definition isStatusShow (o : Output) : bool :=
  match o with StatusShow _ _ _ => true | EnvShow _ => false end.

Definition isEnvShow (o : Output) : bool :=
  match o with StatusShow _ _ _ => false | EnvShow _ => true end.

(** ** Statements

    A statement of a sketch updates the globals (of type [S]) and pushes to
    the strips. *)

Definition Command (S : Type) : Type := S -> S * list Output.

Section Statements.
Context {S : Type}.

Definition skip : Command S := fun s => (s, []).
Definition assign (f : S -> S) : Command S := fun s => (f s, []).
Definition emit (o : Output) : Command S := fun s => (s, [o]).
Definition andThen (c1 c2 : Command S) : Command S :=
  fun s => let (s1, o1) := c1 s in
           let (s2, o2) := c2 s1 in (s2, o1 ++ o2).
Definition when (b : S -> bool) (c : Command S) : Command S :=
  fun s => if b s then c s else skip s.
Definition ifte (b : S -> bool) (c1 c2 : Command S) : Command S :=
  fun s => if b s then c1 s else c2 s.
End Statements.

Declare Scope cmd_scope.
Delimit Scope cmd_scope with cmd.
Notation "c1 ;; c2" := (andThen c1 c2)
  (at level 61, right associativity) : cmd_scope.

(** ** Duration model and session state machine *)

(** The two clamping [if]s that end both recommendation functions. *)
Definition clampMin (lo hi recMin : Z) : Z :=
  let recMin := if recMin <? lo then lo else recMin in
  if hi <? recMin then hi else recMin.

Module FocusRest.

(** [recMin] of [calculateRecommendedTime] before the clamp. *)
Definition recommendedSum (lux : Q) (noise distanceCM : Z) : Z :=
  let baseMin := 45 in
  let delta := 0 in
  let delta :=
    if Qgeb lux 300 then delta + 10
    else if Qgeb lux 150 then delta + 5
    else if Qltb lux 80 then delta - 10
    else delta in
  let delta :=
    if noise <? 200 then delta + 10
    else if noise <? 350 then delta + 5
    else if 650 <? noise then delta - 10
    else delta in
  let delta :=
    if 40 <=? distanceCM then delta + 5
    else if (distanceCM <? 20) && (0 <? distanceCM) then delta - 5
    else delta in
  baseMin + delta.

Definition recommendedMinutes (lux : Q) (noise distanceCM : Z) : Z :=
  clampMin 25 60 (recommendedSum lux noise distanceCM).

(** [calculateRecommendedTime]: the value it stores in
    [recommendedFocusTime]. *)
Definition calculateRecommendedTime (lux : Q) (noise distanceCM : Z) : Z :=
  mul32 (recommendedMinutes lux noise distanceCM) 60000.

Definition restMinutes (lux : Q) (noise : Z) : Z :=
  let baseMin := 15 in
  let delta := 0 in
  let delta := if Qltb lux 80 then delta + 5 else delta in
  let delta := if 650 <? noise then delta + 5 else delta in
  let delta := if Qgtb lux 150 && (noise <? 250) then delta - 5 else delta in
  clampMin 5 25 (baseMin + delta).

(** [calculateRestTime]: the value it stores in [dynamicRestTime]. *)
Definition calculateRestTime (lux : Q) (noise : Z) : Z :=
  mul32 (restMinutes lux noise) 60000.


(** The globals of the sketch that [loop] reads or writes, and [envOn],
    what the environment strip shows. *)
Record Globals : Type := mkGlobals {
  recommendedFocusTime : Z;
  dynamicRestTime : Z;
  focusStartTime : Z;
  totalFocusTime : Z;
  restStartTime : Z;
  absenceStartTime : Z;
  isPresent : bool;
  inRestMode : bool;
  restFinished : bool;
  waitingForUserToLeave : bool;
  lastR : Z;
  lastG : Z;
  lastB : Z;
  envOn : bool
}.

(** The globals as their initialisers leave them. *)
Definition initial : Globals :=
  {| recommendedFocusTime := mul32 (mul32 45 60) 1000;
     dynamicRestTime := mul32 (mul32 15 60) 1000;
     focusStartTime := 0; totalFocusTime := 0;
     restStartTime := 0; absenceStartTime := 0;
     isPresent := false; inRestMode := false;
     restFinished := false; waitingForUserToLeave := false;
     lastR := -1; lastG := -1; lastB := -1;
     envOn := false |}.

Definition set_recommendedFocusTime (v : Z) (s : Globals) : Globals :=
  let (_, b, c, d, e, f, g, h, i, j, k, l, m, n) := s in
  mkGlobals v b c d e f g h i j k l m n.
Definition set_dynamicRestTime (v : Z) (s : Globals) : Globals :=
  let (a, _, c, d, e, f, g, h, i, j, k, l, m, n) := s in
  mkGlobals a v c d e f g h i j k l m n.
Definition set_focusStartTime (v : Z) (s : Globals) : Globals :=
  let (a, b, _, d, e, f, g, h, i, j, k, l, m, n) := s in
  mkGlobals a b v d e f g h i j k l m n.
Definition set_totalFocusTime (v : Z) (s : Globals) : Globals :=
  let (a, b, c, _, e, f, g, h, i, j, k, l, m, n) := s in
  mkGlobals a b c v e f g h i j k l m n.
Definition set_restStartTime (v : Z) (s : Globals) : Globals :=
  let (a, b, c, d, _, f, g, h, i, j, k, l, m, n) := s in
  mkGlobals a b c d v f g h i j k l m n.
Definition set_absenceStartTime (v : Z) (s : Globals) : Globals :=
  let (a, b, c, d, e, _, g, h, i, j, k, l, m, n) := s in
  mkGlobals a b c d e v g h i j k l m n.
Definition set_isPresent (v : bool) (s : Globals) : Globals :=
  let (a, b, c, d, e, f, _, h, i, j, k, l, m, n) := s in
  mkGlobals a b c d e f v h i j k l m n.
Definition set_inRestMode (v : bool) (s : Globals) : Globals :=
  let (a, b, c, d, e, f, g, _, i, j, k, l, m, n) := s in
  mkGlobals a b c d e f g v i j k l m n.
Definition set_restFinished (v : bool) (s : Globals) : Globals :=
  let (a, b, c, d, e, f, g, h, _, j, k, l, m, n) := s in
  mkGlobals a b c d e f g h v j k l m n.
Definition set_waitingForUserToLeave (v : bool) (s : Globals) : Globals :=
  let (a, b, c, d, e, f, g, h, i, _, k, l, m, n) := s in
  mkGlobals a b c d e f g h i v k l m n.
Definition set_last (r' g' b' : Z) (s : Globals) : Globals :=
  let (a, b, c, d, e, f, g, h, i, j, _, _, _, n) := s in
  mkGlobals a b c d e f g h i j r' g' b' n.
Definition set_envOn (v : bool) (s : Globals) : Globals :=
  let (a, b, c, d, e, f, g, h, i, j, k, l, m, _) := s in
  mkGlobals a b c d e f g h i j k l m v.

(** The values returned by the calls of [millis()] in [loop], one field
    per call. *)
Record Millis : Type := mkMillis {
  at_absence_reset : Z;    (* absenceStartTime = millis(), user still near *)
  at_absence_check : Z;    (* millis() - absenceStartTime >= 2000 *)
  at_rest_start : Z;       (* restStartTime = millis() *)
  at_rest_elapsed : Z;     (* restElapsed = millis() - restStartTime *)
  at_focus_start : Z;      (* focusStartTime = millis(), user sits down *)
  at_focus_close : Z;      (* totalFocusTime += millis() - focusStartTime *)
  at_current_focus : Z;    (* currentFocus = millis() - focusStartTime *)
  at_warning_entry : Z;    (* absenceStartTime = millis(), warning begins *)
  at_return : Z            (* focusStartTime = millis(), after rest *)
}.

(** A pass of [loop] during which the clock does not tick. *)
Definition steady (t : Z) : Millis := mkMillis t t t t t t t t t.

(** The sensor readings and clock readings of one pass of [loop]. *)
Record Cycle : Type := mkCycle {
  distance : Z;     (* getDistanceCM() *)
  noiseVal : Z;     (* analogRead(SOUND_PIN) *)
  lux : Q;          (* veml.readLux() *)
  clock : Millis
}.

Definition Cmd : Type := Command Globals.

Local Open Scope cmd_scope.

(** [safeSetStatusColor]: nothing is pushed when the color is the one
    last written. *)
Definition safeSetStatusColor (r g b : Z) : Cmd :=
  ifte (fun s => (r =? lastR s) && (g =? lastG s) && (b =? lastB s))
    skip
    (emit (StatusShow r g b) ;; assign (set_last r g b)).

Definition setEnvironmentLight (on : bool) : Cmd :=
  assign (set_envOn on) ;; emit (EnvShow on).

(** 1) red warning state: [if (waitingForUserToLeave) { ...; return; }] *)
Definition warningState (c : Cycle) : Cmd :=
  let near := userNear (distance c) in
  safeSetStatusColor 40 0 0 ;;
  when (fun _ => near)
    (assign (set_absenceStartTime (at_absence_reset (clock c)))) ;;
  when (fun s => negb near &&
                 (2000 <=? sub32 (at_absence_check (clock c))
                                 (absenceStartTime s)))
    (assign (set_waitingForUserToLeave false) ;;
     assign (set_inRestMode true) ;;
     assign (set_restStartTime (at_rest_start (clock c)))).

(** [restElapsed] of the rest mode. *)
Definition restElapsed (c : Cycle) (s : Globals) : Z :=
  sub32 (at_rest_elapsed (clock c)) (restStartTime s).

(** 2) rest mode: [if (inRestMode) { ...; return; }] *)
Definition restMode (c : Cycle) : Cmd :=
  let near := userNear (distance c) in
  safeSetStatusColor 40 0 0 ;;
  setEnvironmentLight false ;;
  when (fun s => negb near && (dynamicRestTime s <=? restElapsed c s))
    (assign (set_inRestMode false) ;;
     assign (set_restFinished true) ;;
     safeSetStatusColor 20 20 0).

(** 3) normal focus mode, first part: the two presence updates. *)
Definition presenceUpdate (c : Cycle) : Cmd :=
  let near := userNear (distance c) in
  when (fun s => near && negb (isPresent s))
    (assign (set_isPresent true) ;;
     assign (set_restFinished false) ;;
     assign (set_focusStartTime (at_focus_start (clock c)))) ;;
  when (fun s => negb near && isPresent s)
    (assign (fun s => set_totalFocusTime
               (add32 (totalFocusTime s)
                      (sub32 (at_focus_close (clock c)) (focusStartTime s))) s) ;;
     assign (set_isPresent false)).

(** [currentFocus], read after the presence updates. *)
Definition currentFocus (c : Cycle) (s : Globals) : Z :=
  if isPresent s then sub32 (at_current_focus (clock c)) (focusStartTime s)
  else 0.

(** The condition of "enter warning mode". *)
Definition focusTimeReached (c : Cycle) (s : Globals) : bool :=
  negb (inRestMode s) && isPresent s &&
  (recommendedFocusTime s <=? currentFocus c s).

(** The body of "enter warning mode", up to its [return]. *)
Definition enterWarning (c : Cycle) : Cmd :=
  assign (fun s => set_totalFocusTime
            (add32 (totalFocusTime s) (currentFocus c s)) s) ;;
  assign (set_isPresent false) ;;
  assign (set_waitingForUserToLeave true) ;;
  assign (set_absenceStartTime (at_warning_entry (clock c))) ;;
  safeSetStatusColor 40 0 0.

(** "After rest: waiting for user to return". *)
Definition afterRest (c : Cycle) : Cmd :=
  when restFinished
    (setEnvironmentLight false ;;
     safeSetStatusColor 20 20 0 ;;
     when (fun _ => userNear (distance c))
       (assign (set_restFinished false) ;;
        assign (set_focusStartTime (at_return (clock c))))).

(** "LED + LCD behavior during focus". *)
Definition statusDecision (c : Cycle) : Cmd :=
  when isPresent
    (if negb (validDistance (distance c)) then
       if MAX_NOISE <? noiseVal c then safeSetStatusColor 40 40 0
       else safeSetStatusColor 0 0 0
     else if userTooClose (distance c) then safeSetStatusColor 0 0 40
     else if MAX_NOISE <? noiseVal c then safeSetStatusColor 40 40 0
     else safeSetStatusColor 0 40 0).

Definition focusMode (c : Cycle) : Cmd :=
  presenceUpdate c ;;
  ifte (focusTimeReached c)
    (enterWarning c)
    (afterRest c ;;
     statusDecision c ;;
     setEnvironmentLight (Qltb (lux c) MIN_LUX)).

(** The two recommendations, recomputed at the top of every pass. *)
Definition recompute (c : Cycle) : Cmd :=
  assign (set_recommendedFocusTime
            (calculateRecommendedTime (lux c) (noiseVal c)
                                      (distanceArg (distance c)))) ;;
  assign (set_dynamicRestTime (calculateRestTime (lux c) (noiseVal c))).

(** One pass of [loop]. *)
Definition loop (c : Cycle) : Cmd :=
  recompute c ;;
  ifte waitingForUserToLeave (warningState c)
    (ifte inRestMode (restMode c) (focusMode c)).

Definition step (s : Globals) (c : Cycle) : Globals := fst (loop c s).
Definition outputs (s : Globals) (c : Cycle) : list Output := snd (loop c s).

(** The globals after a sequence of passes. *)
Definition run (s : Globals) (cs : list Cycle) : Globals :=
  fold_left step cs s.

(** The phases of the specification, read off the flags in the order in
    which [loop] tests them. *)
Inductive Phase : Type :=
| Idle | Focusing | WarnPendingLeave | Resting | RestFinished.

Definition phase (s : Globals) : Phase :=
  if waitingForUserToLeave s then WarnPendingLeave
  else if inRestMode s then Resting
  else if restFinished s then RestFinished
  else if isPresent s then Focusing
  else Idle.

(** The color last written to the status strip. *)
Definition lastColor (s : Globals) : Z * Z * Z := (lastR s, lastG s, lastB s).

End FocusRest.

Module FeedbackStation.

(** The globals of the Feedback Station sketch that its [loop] reads or
    writes, and [envOn], what the environment strip shows. *)
Record Globals : Type := mkGlobals {
  recommendedFocusTime : Z;
  dynamicRestTime : Z;
  isPresent : bool;
  breakWarning : bool;
  inRestMode : bool;
  restFinished : bool;
  focusStartTime : Z;
  totalFocusTime : Z;
  restStartTime : Z;
  lastColorChangeTime : Z;
  lastR : Z;
  lastG : Z;
  lastB : Z;
  envOn : bool
}.

Definition initial : Globals :=
  {| recommendedFocusTime := mul32 (mul32 45 60) 1000;
     dynamicRestTime := mul32 (mul32 15 60) 1000;
     isPresent := false; breakWarning := false;
     inRestMode := false; restFinished := false;
     focusStartTime := 0; totalFocusTime := 0; restStartTime := 0;
     lastColorChangeTime := 0;
     lastR := -1; lastG := -1; lastB := -1;
     envOn := false |}.

Definition set_recommendedFocusTime (v : Z) (s : Globals) : Globals :=
  let (_, b, c, d, e, f, g, h, i, j, k, l, m, n) := s in
  mkGlobals v b c d e f g h i j k l m n.
Definition set_dynamicRestTime (v : Z) (s : Globals) : Globals :=
  let (a, _, c, d, e, f, g, h, i, j, k, l, m, n) := s in
  mkGlobals a v c d e f g h i j k l m n.
Definition set_isPresent (v : bool) (s : Globals) : Globals :=
  let (a, b, _, d, e, f, g, h, i, j, k, l, m, n) := s in
  mkGlobals a b v d e f g h i j k l m n.
Definition set_breakWarning (v : bool) (s : Globals) : Globals :=
  let (a, b, c, _, e, f, g, h, i, j, k, l, m, n) := s in
  mkGlobals a b c v e f g h i j k l m n.
Definition set_inRestMode (v : bool) (s : Globals) : Globals :=
  let (a, b, c, d, _, f, g, h, i, j, k, l, m, n) := s in
  mkGlobals a b c d v f g h i j k l m n.
Definition set_restFinished (v : bool) (s : Globals) : Globals :=
  let (a, b, c, d, e, _, g, h, i, j, k, l, m, n) := s in
  mkGlobals a b c d e v g h i j k l m n.
Definition set_focusStartTime (v : Z) (s : Globals) : Globals :=
  let (a, b, c, d, e, f, _, h, i, j, k, l, m, n) := s in
  mkGlobals a b c d e f v h i j k l m n.
Definition set_totalFocusTime (v : Z) (s : Globals) : Globals :=
  let (a, b, c, d, e, f, g, _, i, j, k, l, m, n) := s in
  mkGlobals a b c d e f g v i j k l m n.
Definition set_restStartTime (v : Z) (s : Globals) : Globals :=
  let (a, b, c, d, e, f, g, h, _, j, k, l, m, n) := s in
  mkGlobals a b c d e f g h v j k l m n.
Definition set_last (now r' g' b' : Z) (s : Globals) : Globals :=
  let (a, b, c, d, e, f, g, h, i, _, _, _, _, n) := s in
  mkGlobals a b c d e f g h i now r' g' b' n.
Definition set_envOn (v : bool) (s : Globals) : Globals :=
  let (a, b, c, d, e, f, g, h, i, j, k, l, m, _) := s in
  mkGlobals a b c d e f g h i j k l m v.

(** The values returned by the calls of [millis()] in one pass of [loop],
    one field per call; [safeSetStatusColor] reads the clock itself, so
    each of its call sites has a reading. *)
Record Millis : Type := mkMillis {
  at_focus_start : Z;      (* focusStartTime = millis(), user sits down *)
  at_focus_close : Z;      (* totalFocusTime += millis() - focusStartTime *)
  at_current_focus : Z;    (* currentFocusMs = millis() - focusStartTime *)
  at_rest_start : Z;       (* restStartTime = millis() *)
  at_color_lock : Z;       (* safeSetStatusColor(40,0,0), entering rest *)
  at_color_rest : Z;       (* safeSetStatusColor(40,0,0), in rest mode *)
  at_rest_elapsed : Z;     (* restElapsedMs = millis() - restStartTime *)
  at_color_finished : Z;   (* safeSetStatusColor(20,20,0), rest has passed *)
  at_color_waiting : Z;    (* safeSetStatusColor(20,20,0), post-rest *)
  at_return : Z;           (* focusStartTime = millis(), user returns *)
  at_color_status : Z      (* safeSetStatusColor of the status decision *)
}.

Definition steady (t : Z) : Millis := mkMillis t t t t t t t t t t t.

Record Cycle : Type := mkCycle {
  distance : Z;     (* getDistanceCM() *)
  noiseVal : Z;     (* analogRead(SOUND_PIN) *)
  lux : Q;          (* veml.readLux() *)
  clock : Millis
}.

Definition Cmd : Type := Command Globals.

Local Open Scope cmd_scope.

(** [calculateRecommendedTime] and [calculateRestTime] have the bands and
    clamps of the Focus/Rest sketch and convert with
    [(unsigned long)recMin * 60UL * 1000UL]. *)
Definition calculateRecommendedTime (lux : Q) (noise distanceCM : Z) : Z :=
  mul32 (mul32 (FocusRest.recommendedMinutes lux noise distanceCM) 60) 1000.

Definition calculateRestTime (lux : Q) (noise : Z) : Z :=
  mul32 (mul32 (FocusRest.restMinutes lux noise) 60) 1000.

(** [safeSetStatusColor]: same color, nothing; a change less than a
    second after the last one, nothing either. *)
Definition safeSetStatusColor (now r g b : Z) : Cmd :=
  ifte (fun s => (r =? lastR s) && (g =? lastG s) && (b =? lastB s))
    skip
    (ifte (fun s => sub32 now (lastColorChangeTime s) <? 1000)
       skip
       (emit (StatusShow r g b) ;; assign (set_last now r g b))).

Definition setEnvironmentLight (state : bool) : Cmd :=
  assign (set_envOn state) ;; emit (EnvShow state).

(** "presence detection & tracking". *)
Definition presenceUpdate (c : Cycle) : Cmd :=
  ifte (fun s => userNear (distance c) && negb (inRestMode s))
    (when (fun s => negb (isPresent s))
       (assign (set_isPresent true) ;;
        assign (set_restFinished false) ;;
        assign (set_focusStartTime (at_focus_start (clock c)))))
    (when isPresent
       (assign (fun s => set_totalFocusTime
                  (add32 (totalFocusTime s)
                         (sub32 (at_focus_close (clock c)) (focusStartTime s))) s) ;;
        assign (set_isPresent false))).

Definition currentFocusMs (c : Cycle) (s : Globals) : Z :=
  if isPresent s then sub32 (at_current_focus (clock c)) (focusStartTime s)
  else 0.

(** "ENTER REST MODE when continuous focus reaches recommended". *)
Definition enterRest (c : Cycle) : Cmd :=
  when (fun s => negb (inRestMode s) && isPresent s &&
                 (recommendedFocusTime s <=? currentFocusMs c s))
    (fun s =>
       let cur := currentFocusMs c s in
       (assign (set_inRestMode true) ;;
        assign (set_breakWarning true) ;;
        assign (set_restStartTime (at_rest_start (clock c))) ;;
        assign (fun s => set_totalFocusTime (add32 (totalFocusTime s) cur) s) ;;
        assign (set_isPresent false) ;;
        safeSetStatusColor (at_color_lock (clock c)) 40 0 0) s).

Definition restElapsedMs (c : Cycle) (s : Globals) : Z :=
  sub32 (at_rest_elapsed (clock c)) (restStartTime s).

(** "REST MODE OPERATIONS", up to the [return]. *)
Definition restMode (c : Cycle) : Cmd :=
  setEnvironmentLight false ;;
  safeSetStatusColor (at_color_rest (clock c)) 40 0 0 ;;
  when (fun s => negb (userNear (distance c)) &&
                 (dynamicRestTime s <=? restElapsedMs c s))
    (assign (set_inRestMode false) ;;
     assign (set_breakWarning false) ;;
     assign (set_restFinished true) ;;
     safeSetStatusColor (at_color_finished (clock c)) 20 20 0).

(** "POST-REST". *)
Definition postRest (c : Cycle) : Cmd :=
  when restFinished
    (setEnvironmentLight false ;;
     safeSetStatusColor (at_color_waiting (clock c)) 20 20 0 ;;
     when (fun _ => userNear (distance c))
       (assign (set_restFinished false) ;;
        assign (set_focusStartTime (at_return (clock c))))).

(** "STATUS LED decision": nothing when the user is absent. *)
Definition statusDecision (c : Cycle) : Cmd :=
  ifte (fun s => negb (isPresent s))
    skip
    (let now := at_color_status (clock c) in
     if userTooClose (distance c) then safeSetStatusColor now 0 0 40
     else if MAX_NOISE <? noiseVal c then safeSetStatusColor now 40 40 0
     else safeSetStatusColor now 0 40 0).

Definition recompute (c : Cycle) : Cmd :=
  assign (set_recommendedFocusTime
            (calculateRecommendedTime (lux c) (noiseVal c)
                                      (distanceArg (distance c)))) ;;
  assign (set_dynamicRestTime (calculateRestTime (lux c) (noiseVal c))).

(** One pass of [loop]. *)
Definition loop (c : Cycle) : Cmd :=
  recompute c ;;
  presenceUpdate c ;;
  enterRest c ;;
  ifte inRestMode
    (restMode c)
    (postRest c ;;
     statusDecision c ;;
     setEnvironmentLight (Qltb (lux c) MIN_LUX)).

Definition step (s : Globals) (c : Cycle) : Globals := fst (loop c s).
Definition outputs (s : Globals) (c : Cycle) : list Output := snd (loop c s).

Definition lastColor (s : Globals) : Z * Z * Z := (lastR s, lastG s, lastB s).

(** The globals once the recommendations are recomputed and the presence
    tracking is done. *)
Definition atDecision (s : Globals) (c : Cycle) : Globals :=
  fst ((recompute c ;; presenceUpdate c) s).

(** A pass used in the scenarios: every clock read returns [t]. *)
Definition pass (distance noise : Z) (lux : Z) (t : Z) : Cycle :=
  mkCycle distance noise (inject_Z lux) (steady t).

End FeedbackStation.

Module FinalVersion.

(** [recMin] of the Final Version's [calculateRecommendedTime] before the
    clamp: smaller bonuses for good light and quiet. *)
Definition recommendedSum (lux : Q) (noise distanceCM : Z) : Z :=
  let baseMin := 45 in
  let delta := 0 in
  let delta :=
    if Qgeb lux 300 then delta + 5
    else if Qgeb lux 150 then delta + 0
    else if Qltb lux 80 then delta - 10
    else delta in
  let delta :=
    if noise <? 200 then delta + 5
    else if noise <? 350 then delta + 0
    else if 650 <? noise then delta - 10
    else delta in
  let delta :=
    if 40 <=? distanceCM then delta + 5
    else if (distanceCM <? 20) && (0 <? distanceCM) then delta - 5
    else delta in
  baseMin + delta.

Definition recommendedMinutes (lux : Q) (noise distanceCM : Z) : Z :=
  clampMin 20 60 (recommendedSum lux noise distanceCM).

Definition calculateRecommendedTime (lux : Q) (noise distanceCM : Z) : Z :=
  mul32 (recommendedMinutes lux noise distanceCM) 60000.

End FinalVersion.

(** ** The duration model as the specification words it *)

Module Reference.

Definition clamp (x lo hi : Z) : Z := Z.max lo (Z.min hi x).

Definition luxDelta (lux : Q) : Z :=
  if Qgeb lux 300 then 10
  else if Qgeb lux 150 && Qltb lux 300 then 5
  else if Qgeb lux 80 && Qltb lux 150 then 0
  else if Qltb lux 80 then -10
  else 0.

Definition noiseDelta (noise : Z) : Z :=
  if noise <? 200 then 10
  else if (200 <=? noise) && (noise <? 350) then 5
  else if (350 <=? noise) && (noise <=? 650) then 0
  else if 650 <? noise then -10
  else 0.

Definition distanceDelta (distance : Z) : Z :=
  if 40 <=? distance then 5
  else if (0 <? distance) && (distance <? 20) then -5
  else 0.

Definition unclampedMinutes (lux : Q) (noise distance : Z) : Z :=
  45 + luxDelta lux + noiseDelta noise + distanceDelta distance.

Definition recommendedMinutes (floor : Z) (lux : Q) (noise distance : Z) : Z :=
  clamp (unclampedMinutes lux noise distance) floor 60.

End Reference.

(** ** Notions used by the properties of the session machine *)

Module Session.
Import FocusRest.

(** The globals at the point of [loop] where "enter warning mode" is
    tested: the recommendations are recomputed and the presence updates
    are done. *)
Definition atDecision (s : Globals) (c : Cycle) : Globals :=
  fst ((recompute c ;; presenceUpdate c)%cmd s).

(** The pass runs the normal focus mode, not one of the two branches that
    end in an early [return]. *)
Definition normalPass (s : Globals) : bool :=
  negb (waitingForUserToLeave s) && negb (inRestMode s).

(** The two events that close a focus segment. *)
Definition closesOnLeave (s : Globals) (c : Cycle) : bool :=
  normalPass s && isPresent s && negb (userNear (distance c)).
Definition closesOnLimit (s : Globals) (c : Cycle) : bool :=
  normalPass s && focusTimeReached c (atDecision s c).

(** The milliseconds that the pass adds to [totalFocusTime]. *)
Definition elapsedAtClose (s : Globals) (c : Cycle) : Z :=
  if closesOnLeave s c
  then sub32 (at_focus_close (clock c)) (focusStartTime s)
  else if closesOnLimit s c then currentFocus c (atDecision s c)
  else 0.

(** At most one of the four state flags is set. *)
Definition exclusiveFlags (s : Globals) : Prop :=
  (isPresent s = true ->
     waitingForUserToLeave s = false /\ inRestMode s = false /\
     restFinished s = false) /\
  (waitingForUserToLeave s = true ->
     inRestMode s = false /\ restFinished s = false) /\
  (inRestMode s = true -> restFinished s = false).

(** The globals that passes of [loop] produce from the initial ones. *)
Inductive reachable : Globals -> Prop :=
| reachable_initial : reachable initial
| reachable_step s c : reachable s -> reachable (step s c).

(** Passes in the warning state, read from a timer value [t0]: a pass that
    sees the user restarts the timer, and every pass that does not see the
    user comes less than 2000 ms after the timer value. *)
Fixpoint absencesStayShort (t0 : Z) (cs : list Cycle) : bool :=
  match cs with
  | [] => true
  | c :: cs =>
      if userNear (distance c)
      then absencesStayShort (at_absence_reset (clock c)) cs
      else (sub32 (at_absence_check (clock c)) t0 <? 2000)
           && absencesStayShort t0 cs
  end.

(** Every pass of [cs] ends in the warning state. *)
Fixpoint warningThrough (s : Globals) (cs : list Cycle) : bool :=
  match cs with
  | [] => true
  | c :: cs =>
      match phase (step s c) with
      | WarnPendingLeave => warningThrough (step s c) cs
      | _ => false
      end
  end.

(** The clock of the last pass of [cs] that saw the user, or [t0] when no
    pass of [cs] saw the user. *)
Fixpoint lastSighting (t0 : Z) (cs : list Cycle) : Z :=
  match cs with
  | [] => t0
  | c :: cs =>
      lastSighting (if userNear (distance c)
                    then at_absence_reset (clock c) else t0) cs
  end.

(** The recommendation latch as the specification words it: the target of
    a focus segment is the one computed on the pass that began the
    segment, and a later pass of the same segment enters the warning state
    exactly when the elapsed time reaches that target. *)
Definition focusTargetLatchedAtEntry : Prop :=
  forall (s : Globals) (c1 c2 : Cycle),
    phase s = Idle ->
    phase (step s c1) = Focusing ->
    userNear (distance c2) = true ->
    (phase (step (step s c1) c2) = WarnPendingLeave <->
     recommendedFocusTime (step s c1)
     <= sub32 (at_current_focus (clock c2)) (focusStartTime (step s c1))).

(** The room light rule as the specification words it: outside Resting
    the light is on exactly when the snapshot is too dark. *)
Definition envLightFollowsDarkness : Prop :=
  forall (s : Globals) (c : Cycle),
    reachable s -> phase s <> Resting ->
    envOn (step s c) = tooDark (lux c).

(** The accumulated focus total never decreases. *)
Definition totalFocusNeverDecreases : Prop :=
  forall (s : Globals) (c : Cycle),
    reachable s -> totalFocusTime s <= totalFocusTime (step s c).

(** Passes used in the scenarios: every clock read of the pass returns
    [t]. *)
Definition pass (distance noise : Z) (lux : Z) (t : Z) : Cycle :=
  mkCycle distance noise (inject_Z lux) (steady t).

End Session.

(** ** The demo sketch

    The "DEMO VERSION" sketch: fixed focus and rest times of one minute, a
    [safeSetStatusColor] that always pushes, and a [loop] that tests the rest
    mode before the warning state.  Its globals hold no copy of the strip
    colors, so the pushes are its only output. *)

Module Demo.

Definition FIXED_FOCUS_TIME : Z := mul32 (mul32 1 60) 1000.
Definition FIXED_REST_TIME : Z := mul32 (mul32 1 60) 1000.

Record Globals : Type := mkGlobals {
  isPresent : bool;
  inRestMode : bool;
  waitingForUserToLeave : bool;
  focusStartTime : Z;
  restStartTime : Z;
  absenceStartTime : Z
}.

Definition initial : Globals :=
  {| isPresent := false; inRestMode := false; waitingForUserToLeave := false;
     focusStartTime := 0; restStartTime := 0; absenceStartTime := 0 |}.

Definition set_isPresent (v : bool) (s : Globals) : Globals :=
  let (_, b, c, d, e, f) := s in mkGlobals v b c d e f.
Definition set_inRestMode (v : bool) (s : Globals) : Globals :=
  let (a, _, c, d, e, f) := s in mkGlobals a v c d e f.
Definition set_waitingForUserToLeave (v : bool) (s : Globals) : Globals :=
  let (a, b, _, d, e, f) := s in mkGlobals a b v d e f.
Definition set_focusStartTime (v : Z) (s : Globals) : Globals :=
  let (a, b, c, _, e, f) := s in mkGlobals a b c v e f.
Definition set_restStartTime (v : Z) (s : Globals) : Globals :=
  let (a, b, c, d, _, f) := s in mkGlobals a b c d v f.
Definition set_absenceStartTime (v : Z) (s : Globals) : Globals :=
  let (a, b, c, d, e, _) := s in mkGlobals a b c d e v.

(** The values returned by the calls of [millis()] in [loop]. *)
Record Millis : Type := mkMillis {
  at_rest_elapsed : Z;     (* elapsed = millis() - restStartTime *)
  at_absence_reset : Z;    (* absenceStartTime = millis(), user still near *)
  at_absence_check : Z;    (* millis() - absenceStartTime >= 2000 *)
  at_rest_start : Z;       (* restStartTime = millis() *)
  at_focus_start : Z;      (* focusStartTime = millis() *)
  at_current_focus : Z;    (* currentFocus = millis() - focusStartTime *)
  at_warning_entry : Z     (* absenceStartTime = millis(), warning begins *)
}.

Definition steady (t : Z) : Millis := mkMillis t t t t t t t.

Record Cycle : Type := mkCycle {
  distance : Z;
  noiseVal : Z;
  lux : Q;
  clock : Millis
}.

Definition pass (distance noise : Z) (lux : Z) (t : Z) : Cycle :=
  mkCycle distance noise (inject_Z lux) (steady t).

Definition Cmd : Type := Command Globals.

Local Open Scope cmd_scope.

(** [safeSetStatusColor] of the demo: no test, it always fills and shows. *)
Definition safeSetStatusColor (r g b : Z) : Cmd := emit (StatusShow r g b).

Definition setEnvironmentLight (state : bool) : Cmd := emit (EnvShow state).

(** "REST MODE", up to its [return]. *)
Definition restMode (c : Cycle) : Cmd :=
  safeSetStatusColor 40 0 0 ;;
  setEnvironmentLight false ;;
  when (fun s => negb (userNear (distance c)) &&
                 (FIXED_REST_TIME <=?
                  sub32 (at_rest_elapsed (clock c)) (restStartTime s)))
    (assign (set_inRestMode false) ;;
     safeSetStatusColor 0 40 0).

(** "WAITING FOR USER TO LEAVE", up to its [return]. *)
Definition warningState (c : Cycle) : Cmd :=
  safeSetStatusColor 40 0 0 ;;
  setEnvironmentLight false ;;
  when (fun _ => userNear (distance c))
    (assign (set_absenceStartTime (at_absence_reset (clock c)))) ;;
  when (fun s => negb (userNear (distance c)) &&
                 (2000 <=? sub32 (at_absence_check (clock c))
                                 (absenceStartTime s)))
    (assign (set_waitingForUserToLeave false) ;;
     assign (set_inRestMode true) ;;
     assign (set_restStartTime (at_rest_start (clock c)))).

Definition presenceUpdate (c : Cycle) : Cmd :=
  when (fun s => userNear (distance c) && negb (isPresent s))
    (assign (set_isPresent true) ;;
     assign (set_focusStartTime (at_focus_start (clock c)))) ;;
  when (fun s => negb (userNear (distance c)) && isPresent s)
    (assign (set_isPresent false)).

Definition currentFocus (c : Cycle) (s : Globals) : Z :=
  if isPresent s then sub32 (at_current_focus (clock c)) (focusStartTime s)
  else 0.

(** "LED + LCD based on sensors": not guarded by [isPresent]. *)
Definition statusDecision (c : Cycle) : Cmd :=
  if negb (validDistance (distance c)) then safeSetStatusColor 0 0 0
  else if userTooClose (distance c) then safeSetStatusColor 0 0 40
  else if MAX_NOISE <? noiseVal c then safeSetStatusColor 40 40 0
  else safeSetStatusColor 0 40 0.

(** "FOCUS MODE". *)
Definition focusMode (c : Cycle) : Cmd :=
  presenceUpdate c ;;
  ifte (fun s => isPresent s && (FIXED_FOCUS_TIME <=? currentFocus c s))
    (assign (set_waitingForUserToLeave true) ;;
     assign (set_absenceStartTime (at_warning_entry (clock c))) ;;
     safeSetStatusColor 40 0 0)
    (statusDecision c ;;
     setEnvironmentLight (Qltb (lux c) MIN_LUX)).

(** One pass of [loop]. *)
Definition loop (c : Cycle) : Cmd :=
  ifte inRestMode (restMode c)
    (ifte waitingForUserToLeave (warningState c) (focusMode c)).

Definition step (s : Globals) (c : Cycle) : Globals := fst (loop c s).
Definition outputs (s : Globals) (c : Cycle) : list Output := snd (loop c s).

End Demo.

(** ** The LCD of the Focus/Rest sketch

    What [loop] of the Focus/Rest sketch prints: the page rotation with its
    two globals, and the numbers of the pages.  The lux value of the second
    page goes through a conversion of [float] to [int] and is left out. *)

Module Display.
Import FocusRest Session.

Record Lcd : Type := mkLcd {
  lastLcdUpdate : Z;
  lcdPage : Z
}.

Definition initialLcd : Lcd := {| lastLcdUpdate := 0; lcdPage := 0 |}.

(** The two calls of [millis()] of "LCD updates every 2 seconds". *)
Record LcdMillis : Type := mkLcdMillis {
  at_lcd_check : Z;    (* millis() - lastLcdUpdate > 2000 *)
  at_lcd_set : Z       (* lastLcdUpdate = millis() *)
}.

(** "LCD updates every 2 seconds"; [%] of C truncates, as [Z.rem]. *)
Definition rotate (m : LcdMillis) (l : Lcd) : Lcd :=
  if 2000 <? sub32 (at_lcd_check m) (lastLcdUpdate l)
  then {| lastLcdUpdate := at_lcd_set m;
          lcdPage := Z.rem (lcdPage l + 1) 2 |}
  else l.

(** What a pass prints. *)
Inductive Page : Type :=
| BreakPage                                     (* "Time for break!" *)
| RestPage (elapsedMin goalMin : Z)             (* "Rest:x/ym", "Leave desk..." *)
| ProgressPage (totalMin currentMin recMin : Z) (* "Total:xm", "(y / Rec:z)" *)
| EnvPage (noise : Z).                          (* "Lux:..", "Noise:x" *)

(** The LCD part of one pass of [loop], beside the globals of the session:
    the new LCD globals and the page printed, if any (the pass that enters
    the warning state returns before it prints). *)
Definition lcdPass (s : Globals) (c : Cycle) (m : LcdMillis) (l : Lcd)
  : Lcd * option Page :=
  let s0 := atDecision s c in
  if waitingForUserToLeave s then (l, Some BreakPage)
  else if inRestMode s then
    (l, Some (RestPage (restElapsed c s / 60000)
                       (dynamicRestTime s0 / 60000)))
  else if focusTimeReached c s0 then (l, None)
  else
    let currentFocus := currentFocus c s0 in
    let todayFocus := add32 (totalFocusTime s0) currentFocus in
    let l' := rotate m l in
    (l', Some (if lcdPage l' =? 0
               then ProgressPage (todayFocus / 60000) (currentFocus / 60000)
                                 (recommendedFocusTime s0 / 60000)
               else EnvPage (noiseVal c))).

(** The LCD globals after a sequence of passes. *)
Fixpoint lcdRun (s : Globals) (l : Lcd) (cs : list (Cycle * LcdMillis)) : Lcd :=
  match cs with
  | [] => l
  | (c, m) :: cs => lcdRun (step s c) (fst (lcdPass s c m l)) cs
  end.

End Display.

(** ** Further notions for the three sketches *)

Module Extra.
Import FocusRest Session.

(** The edges of the session machine: from a phase to the phase after one
    pass. *)
Definition edge (p q : Phase) : bool :=
  match p, q with
  | Idle, (Idle | Focusing | WarnPendingLeave) => true
  | Focusing, (Idle | Focusing | WarnPendingLeave) => true
  | WarnPendingLeave, (WarnPendingLeave | Resting) => true
  | Resting, (Resting | RestFinished) => true
  | RestFinished, (RestFinished | Focusing | WarnPendingLeave) => true
  | _, _ => false
  end.

(** The color of the status strip after a list of pushes, from the color
    [col] it showed before. *)
Fixpoint shownAfter (col : Z * Z * Z) (os : list Output) : Z * Z * Z :=
  match os with
  | [] => col
  | StatusShow r g b :: os => shownAfter (r, g, b) os
  | EnvShow _ :: os => shownAfter col os
  end.

Definition colorEqb (a b : Z * Z * Z) : bool :=
  let '(r1, g1, b1) := a in
  let '(r2, g2, b2) := b in
  (r1 =? r2) && (g1 =? g2) && (b1 =? b2).

(** Every push to the status strip changes the color shown. *)
Fixpoint everyPushChanges (col : Z * Z * Z) (os : list Output) : bool :=
  match os with
  | [] => true
  | StatusShow r g b :: os =>
      negb (colorEqb (r, g, b) col) && everyPushChanges (r, g, b) os
  | EnvShow _ :: os => everyPushChanges col os
  end.

(** The status color that the status decision gives a user at the desk. *)
Definition focusColor (c : Cycle) : Z * Z * Z :=
  if userTooClose (distance c) then (0, 0, 40)
  else if tooNoisy (noiseVal c) then (40, 40, 0)
  else (0, 40, 0).

(** The status color that goes with a phase; the Idle phase has none. *)
Definition phaseColorOk (s : Globals) : Prop :=
  match phase s with
  | WarnPendingLeave | Resting => lastColor s = (40, 0, 0)
  | RestFinished => lastColor s = (20, 20, 0)
  | Focusing =>
      lastColor s = (0, 0, 40) \/ lastColor s = (40, 40, 0) \/
      lastColor s = (0, 40, 0)
  | Idle => True
  end.

(** The focus segment goes on through every pass of [cs]. *)
Fixpoint focusingThrough (s : Globals) (cs : list Cycle) : bool :=
  match cs with
  | [] => true
  | c :: cs =>
      match phase (step s c) with
      | Focusing => focusingThrough (step s c) cs
      | _ => false
      end
  end.

(** The pass [c] with another value for the clock read of the "after rest"
    block. *)
Definition withReturnClock (t : Z) (c : Cycle) : Cycle :=
  let (d, n, l, m) := c in
  let (a, b, c0, d0, e, f, g, h, _) := m in
  mkCycle d n l (mkMillis a b c0 d0 e f g h t).

(** The distance delta that [loop] obtains from [calculateRecommendedTime]. *)
Definition loopDistanceDelta (distance : Z) : Z :=
  if userTooClose distance then -5
  else if validDistance distance && (distance <? 40) then 0
  else 5.

(** The globals that passes of the Feedback Station produce. *)
Inductive stationReachable : FeedbackStation.Globals -> Prop :=
| stationReachable_initial : stationReachable FeedbackStation.initial
| stationReachable_step s c :
    stationReachable s -> stationReachable (FeedbackStation.step s c).

(** The flags of the Feedback Station: at most one of [isPresent],
    [inRestMode], [restFinished] is set, and [breakWarning] copies
    [inRestMode]. *)
Definition stationFlagsOk (s : FeedbackStation.Globals) : Prop :=
  FeedbackStation.breakWarning s = FeedbackStation.inRestMode s /\
  (FeedbackStation.isPresent s = true ->
     FeedbackStation.inRestMode s = false /\
     FeedbackStation.restFinished s = false) /\
  (FeedbackStation.inRestMode s = true ->
     FeedbackStation.restFinished s = false).

(** The clock reads of the calls of [safeSetStatusColor] that can follow one
    another in one pass of the Feedback Station are less than a second
    apart. *)
Definition stationQuickPass (c : FeedbackStation.Cycle) : Prop :=
  let m := FeedbackStation.clock c in
  sub32 (FeedbackStation.at_color_rest m) (FeedbackStation.at_color_lock m)
  < 1000 /\
  sub32 (FeedbackStation.at_color_finished m) (FeedbackStation.at_color_lock m)
  < 1000 /\
  sub32 (FeedbackStation.at_color_finished m) (FeedbackStation.at_color_rest m)
  < 1000 /\
  sub32 (FeedbackStation.at_color_status m)
        (FeedbackStation.at_color_waiting m) < 1000.

(** The pass [c] of the demo with other lux and noise readings. *)
Definition demoWithEnvironment (l : Q) (n : Z) (c : Demo.Cycle) : Demo.Cycle :=
  Demo.mkCycle (Demo.distance c) n l (Demo.clock c).

End Extra.

(** * Theorems *)

Lemma Qgeb_spec (x : Q) (n : Z) :
  Qgeb x n = true <-> (n * Zpos (Qden x) <= Qnum x)%Z.
Proof.
  unfold Qgeb. rewrite Qle_bool_iff. unfold Qle, inject_Z. simpl. lia.
Qed.

Lemma Qltb_spec (x : Q) (n : Z) :
  Qltb x n = true <-> (Qnum x < n * Zpos (Qden x))%Z.
Proof.
  unfold Qltb. rewrite negb_true_iff, <- not_true_iff_false, Qle_bool_iff.
  unfold Qle, inject_Z. simpl. lia.
Qed.

Lemma Qltb_Qgeb (x : Q) (n : Z) : Qltb x n = negb (Qgeb x n).
Proof. reflexivity. Qed.

Lemma Qgeb_false (x : Q) (n : Z) :
  Qgeb x n = false <-> (Qnum x < n * Zpos (Qden x))%Z.
Proof.
  rewrite <- not_true_iff_false, Qgeb_spec. lia.
Qed.

Lemma Qgtb_spec (x : Q) (n : Z) :
  Qgtb x n = true <-> (n * Zpos (Qden x) < Qnum x)%Z.
Proof.
  unfold Qgtb. rewrite negb_true_iff, <- not_true_iff_false, Qle_bool_iff.
  unfold Qle, inject_Z. simpl. lia.
Qed.

(** Case analysis on the band in which a lux reading lies. *)
Ltac lux_bands :=
  repeat match goal with
  | |- context [Qltb ?x ?n] => rewrite (Qltb_Qgeb x n)
  | |- context [Qgeb ?x ?n] =>
      let E := fresh "E" in destruct (Qgeb x n) eqn:E
  end;
  repeat match goal with
  | H : Qgeb _ _ = true |- _ => apply Qgeb_spec in H
  | H : Qgeb _ _ = false |- _ => apply Qgeb_false in H
  end.

Ltac Z_bands :=
  repeat match goal with
  | |- context [?a <? ?b] =>
      let E := fresh "E" in destruct (Z.ltb_spec a b) as [E | E]
  | |- context [?a <=? ?b] =>
      let E := fresh "E" in destruct (Z.leb_spec a b) as [E | E]
  end.

Lemma luxDelta_code (lux : Q) :
  (if Qgeb lux 300 then 10
   else if Qgeb lux 150 then 5
   else if Qltb lux 80 then -10 else 0) = Reference.luxDelta lux.
Proof.
  unfold Reference.luxDelta. lux_bands; simpl; try reflexivity; lia.
Qed.

Lemma noiseDelta_code (noise : Z) :
  (if noise <? 200 then 10
   else if noise <? 350 then 5
   else if 650 <? noise then -10 else 0) = Reference.noiseDelta noise.
Proof.
  unfold Reference.noiseDelta. Z_bands; simpl; try reflexivity; lia.
Qed.

Lemma distanceDelta_code (d : Z) :
  (if 40 <=? d then 5
   else if (d <? 20) && (0 <? d) then -5 else 0) = Reference.distanceDelta d.
Proof.
  unfold Reference.distanceDelta. Z_bands; simpl; try reflexivity; lia.
Qed.

Lemma clampMin_clamp (lo hi x : Z) :
  lo <= hi -> clampMin lo hi x = Reference.clamp x lo hi.
Proof.
  intros H. unfold clampMin, Reference.clamp.
  destruct (Z.ltb_spec x lo); Z_bands; lia.
Qed.

Lemma clampMin_bounds (lo hi x : Z) :
  lo <= hi -> lo <= clampMin lo hi x <= hi.
Proof.
  intros H. unfold clampMin.
  destruct (Z.ltb_spec x lo); Z_bands; lia.
Qed.

Lemma mul32_small (a b : Z) :
  0 <= a * b < ULONG_MOD -> mul32 a b = a * b.
Proof.
  intros H. unfold mul32, wrap32. apply Z.mod_small. exact H.
Qed.

Lemma recommendedSum_reference (lux : Q) (noise d : Z) :
  FocusRest.recommendedSum lux noise d = Reference.unclampedMinutes lux noise d.
Proof.
  unfold FocusRest.recommendedSum, Reference.unclampedMinutes.
  rewrite <- luxDelta_code, <- noiseDelta_code, <- distanceDelta_code.
  cbv zeta.
  destruct (Qgeb lux 300), (Qgeb lux 150), (Qltb lux 80),
    (noise <? 200), (noise <? 350), (650 <? noise),
    (40 <=? d), ((d <? 20) && (0 <? d)); reflexivity.
Qed.

Lemma recommendedMinutes_bounds (lux : Q) (noise d : Z) :
  25 <= FocusRest.recommendedMinutes lux noise d <= 60.
Proof. apply clampMin_bounds. lia. Qed.

Lemma final_recommendedMinutes_bounds (lux : Q) (noise d : Z) :
  20 <= FinalVersion.recommendedMinutes lux noise d <= 60.
Proof. apply clampMin_bounds. lia. Qed.

Lemma calculateRecommendedTime_minutes (lux : Q) (noise d : Z) :
  FocusRest.calculateRecommendedTime lux noise d
  = FocusRest.recommendedMinutes lux noise d * 60000.
Proof.
  unfold FocusRest.calculateRecommendedTime.
  pose proof (recommendedMinutes_bounds lux noise d).
  apply mul32_small. unfold ULONG_MOD. lia.
Qed.

Lemma final_calculateRecommendedTime_minutes (lux : Q) (noise d : Z) :
  FinalVersion.calculateRecommendedTime lux noise d
  = FinalVersion.recommendedMinutes lux noise d * 60000.
Proof.
  unfold FinalVersion.calculateRecommendedTime.
  pose proof (final_recommendedMinutes_bounds lux noise d).
  apply mul32_small. unfold ULONG_MOD. lia.
Qed.

Lemma station_calculateRecommendedTime_minutes (lux : Q) (noise d : Z) :
  FeedbackStation.calculateRecommendedTime lux noise d
  = FocusRest.recommendedMinutes lux noise d * 60000.
Proof.
  unfold FeedbackStation.calculateRecommendedTime.
  pose proof (recommendedMinutes_bounds lux noise d).
  rewrite (mul32_small _ 60) by (unfold ULONG_MOD; lia).
  rewrite mul32_small by (unfold ULONG_MOD; lia). lia.
Qed.

(** C5. [calculateRecommendedTime] is the reference definition: 45 minutes
    plus the lux, noise and distance deltas of the four-band tables, clamped
    to [25, 60] minutes and stored in milliseconds (the Feedback Station
    computes the same value); at lux 500, noise 100, distance 50 the sum is
    70 minutes and the result is 60 minutes. *)
Theorem C5_recommended_time_is_reference :
  (forall (lux : Q) (noise distance : Z),
      FocusRest.recommendedSum lux noise distance
      = Reference.unclampedMinutes lux noise distance /\
      FocusRest.recommendedMinutes lux noise distance
      = Reference.recommendedMinutes 25 lux noise distance /\
      FocusRest.calculateRecommendedTime lux noise distance
      = Reference.recommendedMinutes 25 lux noise distance * 60000 /\
      FeedbackStation.calculateRecommendedTime lux noise distance
      = Reference.recommendedMinutes 25 lux noise distance * 60000) /\
  Reference.unclampedMinutes (inject_Z 500) 100 50 = 70 /\
  FocusRest.recommendedSum (inject_Z 500) 100 50 = 70 /\
  FocusRest.recommendedMinutes (inject_Z 500) 100 50 = 60 /\
  FocusRest.calculateRecommendedTime (inject_Z 500) 100 50 = 60 * 60000.
Proof.
  split.
  - intros lux noise distance.
    assert (Hm : FocusRest.recommendedMinutes lux noise distance
                 = Reference.recommendedMinutes 25 lux noise distance).
    { unfold FocusRest.recommendedMinutes, Reference.recommendedMinutes.
      rewrite recommendedSum_reference. apply clampMin_clamp. lia. }
    split; [apply recommendedSum_reference | split; [exact Hm | split]].
    + rewrite calculateRecommendedTime_minutes, Hm. reflexivity.
    + rewrite station_calculateRecommendedTime_minutes, Hm. reflexivity.
  - repeat split; vm_compute; reflexivity.
Qed.

(** C6. At lux 50, noise 700, distance 15 the sum is 45-10-10-5 = 20
    minutes; the sketches with floor 25 return 25 minutes, the Final Version
    with floor 20 returns 20 minutes; every result lies between the floor
    and 60 minutes. *)
Theorem C6_floor_scenario_and_bounds :
  FocusRest.recommendedSum (inject_Z 50) 700 15 = 20 /\
  FinalVersion.recommendedSum (inject_Z 50) 700 15 = 20 /\
  FocusRest.calculateRecommendedTime (inject_Z 50) 700 15 = 25 * 60000 /\
  FeedbackStation.calculateRecommendedTime (inject_Z 50) 700 15 = 25 * 60000 /\
  FinalVersion.calculateRecommendedTime (inject_Z 50) 700 15 = 20 * 60000 /\
  (forall (lux : Q) (noise distance : Z),
      25 * 60000 <= FocusRest.calculateRecommendedTime lux noise distance
                 <= 60 * 60000) /\
  (forall (lux : Q) (noise distance : Z),
      25 * 60000 <= FeedbackStation.calculateRecommendedTime lux noise distance
                 <= 60 * 60000) /\
  (forall (lux : Q) (noise distance : Z),
      20 * 60000 <= FinalVersion.calculateRecommendedTime lux noise distance
                 <= 60 * 60000).
Proof.
  do 5 (split; [vm_compute; reflexivity |]).
  split; [| split]; intros lux noise distance.
  - rewrite calculateRecommendedTime_minutes.
    pose proof (recommendedMinutes_bounds lux noise distance). lia.
  - rewrite station_calculateRecommendedTime_minutes.
    pose proof (recommendedMinutes_bounds lux noise distance). lia.
  - rewrite final_calculateRecommendedTime_minutes.
    pose proof (final_recommendedMinutes_bounds lux noise distance). lia.
Qed.

(** The Final Version gives smaller bonuses for good light and quiet: at
    lux 500, noise 100, distance 50 its sum is 45+5+5+5 = 60 minutes, not
    70; the result is 60 minutes all the same. *)
Example final_version_bright_quiet :
  FinalVersion.recommendedSum (inject_Z 500) 100 50 = 60 /\
  FinalVersion.calculateRecommendedTime (inject_Z 500) 100 50 = 60 * 60000.
Proof. split; vm_compute; reflexivity. Qed.

(** ** The session machine of the Focus/Rest sketch *)

Import FocusRest Session.

(** Symbolic execution of one pass: unfold the statements and the record
    accessors, nothing of the arithmetic. *)
Ltac exec :=
  cbv beta iota zeta delta
    [step outputs run loop recompute warningState restMode focusMode
     presenceUpdate enterWarning afterRest statusDecision
     focusTimeReached currentFocus restElapsed
     safeSetStatusColor setEnvironmentLight
     atDecision normalPass closesOnLeave closesOnLimit
     andThen when ifte assign emit skip fst snd app filter
     isStatusShow isEnvShow
     recommendedFocusTime dynamicRestTime focusStartTime totalFocusTime
     restStartTime absenceStartTime isPresent inRestMode restFinished
     waitingForUserToLeave lastR lastG lastB envOn
     set_recommendedFocusTime set_dynamicRestTime set_focusStartTime
     set_totalFocusTime set_restStartTime set_absenceStartTime
     set_isPresent set_inRestMode set_restFinished
     set_waitingForUserToLeave set_last set_envOn
     distance noiseVal lux clock
     phase lastColor];
  cbn [negb andb orb].

Ltac exec_in H :=
  cbv beta iota zeta delta
    [step outputs run loop recompute warningState restMode focusMode
     presenceUpdate enterWarning afterRest statusDecision
     focusTimeReached currentFocus restElapsed
     safeSetStatusColor setEnvironmentLight
     atDecision normalPass closesOnLeave closesOnLimit
     andThen when ifte assign emit skip fst snd app filter
     isStatusShow isEnvShow
     recommendedFocusTime dynamicRestTime focusStartTime totalFocusTime
     restStartTime absenceStartTime isPresent inRestMode restFinished
     waitingForUserToLeave lastR lastG lastB envOn
     set_recommendedFocusTime set_dynamicRestTime set_focusStartTime
     set_totalFocusTime set_restStartTime set_absenceStartTime
     set_isPresent set_inRestMode set_restFinished
     set_waitingForUserToLeave set_last set_envOn
     distance noiseVal lux clock
     phase lastColor] in H;
  cbn [negb andb orb] in H.

(** Case analysis on the innermost test of the goal. *)
Ltac split_if :=
  match goal with
  | |- context [if ?b then _ else _] =>
      lazymatch b with
      | context [if _ then _ else _] => fail
      | _ => let E := fresh "E" in destruct b eqn:E; exec
      end
  end.

Ltac split_ifs := repeat split_if.

(** Boolean facts about comparisons, turned into propositions. *)
Ltac bool_facts :=
  repeat match goal with
  | H : _ && _ = true |- _ => apply andb_true_iff in H; destruct H
  | H : negb _ = true |- _ => apply negb_true_iff in H
  | H : negb _ = false |- _ => apply negb_false_iff in H
  | H : (_ =? _) = true |- _ => apply Z.eqb_eq in H
  | H : (_ <=? _) = true |- _ => apply Z.leb_le in H
  | H : (_ <=? _) = false |- _ => apply Z.leb_gt in H
  | H : (_ <? _) = true |- _ => apply Z.ltb_lt in H
  | H : (_ <? _) = false |- _ => apply Z.ltb_ge in H
  end.

Lemma phase_WarnPendingLeave (s : Globals) :
  phase s = WarnPendingLeave <-> waitingForUserToLeave s = true.
Proof.
  unfold phase.
  destruct (waitingForUserToLeave s), (inRestMode s), (restFinished s),
    (isPresent s); intuition congruence.
Qed.

Lemma phase_Resting (s : Globals) :
  phase s = Resting <->
  waitingForUserToLeave s = false /\ inRestMode s = true.
Proof.
  unfold phase.
  destruct (waitingForUserToLeave s), (inRestMode s), (restFinished s),
    (isPresent s); intuition congruence.
Qed.

Lemma phase_RestFinished (s : Globals) :
  phase s = RestFinished <->
  waitingForUserToLeave s = false /\ inRestMode s = false /\
  restFinished s = true.
Proof.
  unfold phase.
  destruct (waitingForUserToLeave s), (inRestMode s), (restFinished s),
    (isPresent s); intuition congruence.
Qed.

Lemma phase_Focusing (s : Globals) :
  phase s = Focusing <->
  waitingForUserToLeave s = false /\ inRestMode s = false /\
  restFinished s = false /\ isPresent s = true.
Proof.
  unfold phase.
  destruct (waitingForUserToLeave s), (inRestMode s), (restFinished s),
    (isPresent s); intuition congruence.
Qed.

Lemma phase_Idle (s : Globals) :
  phase s = Idle <->
  waitingForUserToLeave s = false /\ inRestMode s = false /\
  restFinished s = false /\ isPresent s = false.
Proof.
  unfold phase.
  destruct (waitingForUserToLeave s), (inRestMode s), (restFinished s),
    (isPresent s); intuition congruence.
Qed.

(** Hypotheses on the phase, turned into the values of the flags. *)
Ltac flags :=
  repeat match goal with
  | H : phase _ = WarnPendingLeave |- _ => apply phase_WarnPendingLeave in H
  | H : phase _ = Resting |- _ => apply phase_Resting in H
  | H : phase _ = RestFinished |- _ => apply phase_RestFinished in H
  | H : phase _ = Focusing |- _ => apply phase_Focusing in H
  | H : phase _ = Idle |- _ => apply phase_Idle in H
  | H : _ /\ _ |- _ => destruct H
  end.

(** The implication chain of the derived booleans. *)
Lemma userTooClose_userNear (d : Z) :
  userTooClose d = true -> userNear d = true.
Proof.
  unfold userTooClose, userNear, TOO_CLOSE_DISTANCE, PRESENT_DISTANCE.
  intros H. bool_facts. apply andb_true_iff. split; [assumption |].
  apply Z.ltb_lt. lia.
Qed.

Lemma userNear_validDistance (d : Z) :
  userNear d = true -> validDistance d = true.
Proof.
  unfold userNear. intros H. apply andb_true_iff in H. tauto.
Qed.

Lemma invalid_not_near (d : Z) :
  validDistance d = false -> userNear d = false.
Proof. unfold userNear. intros ->. reflexivity. Qed.

(** After the presence updates, [isPresent] is exactly [userNear]. *)
Lemma presence_tracks_near (s : Globals) (c : Cycle) :
  isPresent (atDecision s c) = userNear (distance c).
Proof.
  destruct s as [? ? ? ? ? ? p ? ? ? ? ? ? ?].
  exec. destruct (userNear _), p; reflexivity.
Qed.

Lemma exclusiveFlags_initial : exclusiveFlags initial.
Proof. unfold exclusiveFlags. cbn. intuition discriminate. Qed.

Lemma exclusiveFlags_step (s : Globals) (c : Cycle) :
  exclusiveFlags s -> exclusiveFlags (step s c).
Proof.
  unfold exclusiveFlags.
  destruct s as [? ? ? ? ? ? p r f w ? ? ? ?]. exec.
  intros H.
  destruct w, r, f, p; cbn in H;
    try solve [exfalso; intuition discriminate];
    exec; split_ifs; intuition (try discriminate; try congruence).
Qed.

Lemma reachable_exclusiveFlags (s : Globals) :
  reachable s -> exclusiveFlags s.
Proof.
  induction 1; [apply exclusiveFlags_initial | apply exclusiveFlags_step; assumption].
Qed.


(** A pass never sets [isPresent] when the distance is invalid. *)
Lemma invalid_distance_not_present (s : Globals) (c : Cycle) :
  exclusiveFlags s -> validDistance (distance c) = false ->
  isPresent (step s c) = false.
Proof.
  intros Hx Hv. apply invalid_not_near in Hv. revert Hx Hv.
  unfold exclusiveFlags.
  destruct s as [? ? ? ? ? ? p r f w ? ? ? ?]. exec. intros Hx Hv.
  rewrite Hv. exec.
  destruct w, r, p; cbn in Hx;
    try solve [exfalso; intuition discriminate];
    exec; split_ifs; reflexivity.
Qed.

(** C4. The derived booleans form the chain [userTooClose] implies
    [userNear] implies [validDistance]; a distance outside (5, 200), the
    timeout value 0 of [getDistanceCM] included, gives [userNear = false],
    and a pass with such a reading neither starts nor continues a focus
    segment: [isPresent] is false at the decision point and after the
    pass. *)
Theorem C4_invalid_distance_never_asserts_presence :
  (forall d : Z,
      (userTooClose d = true -> userNear d = true) /\
      (userNear d = true -> validDistance d = true)) /\
  (forall d : Z,
      ~ (5 < d < 200) ->
      validDistance d = false /\ userNear d = false /\
      userTooClose d = false) /\
  (forall echo_to_cm : Z -> Z,
      getDistanceCM echo_to_cm 0 = 0 /\
      userNear (getDistanceCM echo_to_cm 0) = false) /\
  (forall (s : Globals) (c : Cycle),
      reachable s -> validDistance (distance c) = false ->
      userNear (distance c) = false /\
      isPresent (atDecision s c) = false /\
      isPresent (step s c) = false /\
      phase (step s c) <> Focusing).
Proof.
  split; [| split; [| split]].
  - intros d. split;
      [apply userTooClose_userNear | apply userNear_validDistance].
  - intros d Hd.
    assert (Hv : validDistance d = false).
    { unfold validDistance. apply andb_false_iff.
      destruct (Z.ltb_spec 5 d); [right | left; reflexivity].
      apply Z.ltb_ge. lia. }
    unfold userNear, userTooClose. rewrite Hv. auto.
  - intros echo_to_cm. split; reflexivity.
  - intros s c Hr Hv.
    pose proof (invalid_not_near _ Hv) as Hn.
    pose proof (invalid_distance_not_present s c
                  (reachable_exclusiveFlags s Hr) Hv) as Hp.
    split; [exact Hn |]. split; [| split; [exact Hp |]].
    + rewrite presence_tracks_near. exact Hn.
    + intros Hf. apply phase_Focusing in Hf.
      destruct Hf as (_ & _ & _ & Hf). congruence.
Qed.

(** Witness: a reading of 10 cm is too close, hence near and valid; the
    timeout value 0 is invalid; and a pass that reads 0 during a focus
    segment ends with [isPresent] false. *)
Lemma C4_witness :
  userNear 10 = true /\
  validDistance 10 = true /\
  userNear 0 = false /\
  validDistance (distance (pass 0 100 500 1000)) = false /\
  isPresent (step (step initial (pass 50 100 500 0)) (pass 0 100 500 1000))
  = false.
Proof.
  destruct C4_invalid_distance_never_asserts_presence
    as (Hchain & Hout & _ & Hpass).
  split; [apply (proj1 (Hchain 10)); reflexivity |].
  split; [apply (proj2 (Hchain 10)); reflexivity |].
  split; [apply (Hout 0); lia |].
  split; [reflexivity |].
  apply (Hpass (step initial (pass 50 100 500 0)) (pass 0 100 500 1000)).
  - apply reachable_step, reachable_initial.
  - reflexivity.
Defined.

(** One pass in rest mode. *)
Lemma rest_pass (s : Globals) (c : Cycle) :
  phase s = Resting ->
  (phase (step s c) = RestFinished <->
   userNear (distance c) = false /\
   dynamicRestTime (step s c) <= restElapsed c s) /\
  dynamicRestTime (step s c) = calculateRestTime (lux c) (noiseVal c) /\
  (phase (step s c) <> RestFinished -> phase (step s c) = Resting) /\
  (userNear (distance c) = true -> phase (step s c) = Resting) /\
  restStartTime (step s c) = restStartTime s.
Proof.
  intros H. flags.
  destruct s as [? ? ? ? ? ? p r f w ? ? ? ?]. exec_in H. exec_in H0. subst.
  exec. destruct (userNear _); exec; split_ifs; bool_facts;
    intuition (try discriminate; try congruence; try lia).
Qed.

(** C3. In rest mode the pass moves to RestFinished exactly when the user
    is away and [restElapsed >= dynamicRestTime] on that same pass (at the
    boundary included); otherwise the machine stays in rest mode, a user
    who is near keeps it there, and the rest timer is never restarted. *)
Theorem C3_rest_ends_iff_away_and_elapsed :
  forall (s : Globals) (c : Cycle),
    phase s = Resting ->
    (phase (step s c) = RestFinished <->
     userNear (distance c) = false /\
     dynamicRestTime (step s c) <= restElapsed c s) /\
    dynamicRestTime (step s c) = calculateRestTime (lux c) (noiseVal c) /\
    (phase (step s c) <> RestFinished -> phase (step s c) = Resting) /\
    (userNear (distance c) = true -> phase (step s c) = Resting) /\
    restStartTime (step s c) = restStartTime s.
Proof.
  intros s c H.
  destruct (rest_pass s c H) as (Hiff & Hd & Hstay & Hnear & Ht).
  split; [exact Hiff |]. split; [exact Hd |]. split; [exact Hstay |].
  split; [exact Hnear | exact Ht].
Qed.

(** Witness, the scenario of the specification: the rest recommendation is
    15 minutes and the user stays away; rest began at 2 702 000 ms, it is
    not over at 3 601 999 ms and it is over on the pass at 3 602 000 ms. *)
Lemma C3_witness :
  phase (run initial [pass 30 400 100 0; pass 30 400 100 2700000;
                      pass 0 400 100 2702000]) = Resting /\
  phase (run initial [pass 30 400 100 0; pass 30 400 100 2700000;
                      pass 0 400 100 2702000; pass 0 400 100 3601999])
  = Resting /\
  phase (run initial [pass 30 400 100 0; pass 30 400 100 2700000;
                      pass 0 400 100 2702000; pass 0 400 100 3602000])
  = RestFinished.
Proof.
  assert (H : phase (run initial [pass 30 400 100 0; pass 30 400 100 2700000;
                                  pass 0 400 100 2702000]) = Resting)
    by (vm_compute; reflexivity).
  split; [exact H |]. split.
  - apply (proj1 (proj2 (proj2
             (C3_rest_ends_iff_away_and_elapsed _ (pass 0 400 100 3601999) H)))).
    intros Hf.
    apply (proj1 (C3_rest_ends_iff_away_and_elapsed
                    _ (pass 0 400 100 3601999) H)) in Hf.
    destruct Hf as [_ Hf]. vm_compute in Hf. apply Hf. reflexivity.
  - apply (proj1 (C3_rest_ends_iff_away_and_elapsed
                    _ (pass 0 400 100 3602000) H)).
    split; [reflexivity | vm_compute; discriminate].
Defined.


(** One pass in the warning state. *)
Lemma warning_pass (s : Globals) (c : Cycle) :
  phase s = WarnPendingLeave ->
  (userNear (distance c) = true ->
     absenceStartTime (step s c) = at_absence_reset (clock c) /\
     phase (step s c) = WarnPendingLeave) /\
  (userNear (distance c) = false ->
     sub32 (at_absence_check (clock c)) (absenceStartTime s) < 2000 ->
     absenceStartTime (step s c) = absenceStartTime s /\
     phase (step s c) = WarnPendingLeave) /\
  (phase (step s c) = Resting <->
     userNear (distance c) = false /\
     2000 <= sub32 (at_absence_check (clock c)) (absenceStartTime s)) /\
  (phase (step s c) <> Resting -> phase (step s c) = WarnPendingLeave).
Proof.
  intros H. flags.
  destruct s as [? ? ? ? ? ? p r f w ? ? ? ?]. exec_in H. subst.
  exec. destruct (userNear _); exec; split_ifs; bool_facts;
    intuition (try discriminate; try congruence; try lia).
Qed.

(** The warning state persists over any sequence of passes whose absences
    all stay short. *)
Lemma warning_persists (cs : list Cycle) :
  forall s : Globals,
    phase s = WarnPendingLeave ->
    absencesStayShort (absenceStartTime s) cs = true ->
    phase (run s cs) = WarnPendingLeave.
Proof.
  induction cs as [| c cs IH]; intros s Hs Hshort.
  - exact Hs.
  - cbn [absencesStayShort] in Hshort.
    change (run s (c :: cs)) with (run (step s c) cs).
    destruct (warning_pass s c Hs) as (Hnear & Haway & _ & _).
    destruct (userNear (distance c)) eqn:En.
    + destruct (Hnear eq_refl) as [Ht Hp].
      apply IH; [exact Hp | rewrite Ht; exact Hshort].
    + apply andb_true_iff in Hshort. destruct Hshort as [Hlt Hshort].
      apply Z.ltb_lt in Hlt.
      destruct (Haway eq_refl Hlt) as [Ht Hp].
      apply IH; [exact Hp | rewrite Ht; exact Hshort].
Qed.

(** The difference of two [millis()] readings is the time that passed
    between them, up to the roll-over of the 32-bit clock. *)
Lemma sub32_elapsed (t0 t : Z) :
  sub32 (wrap32 t) (wrap32 t0) = wrap32 (t - t0).
Proof.
  unfold sub32, wrap32. symmetry. apply Zminus_mod.
Qed.

Lemma wrap32_le (x : Z) : 0 <= x -> wrap32 x <= x.
Proof.
  intros H. unfold wrap32, ULONG_MOD. apply Z.mod_le; lia.
Qed.

(** The pass that enters the warning state sees the user and stamps
    [absenceStartTime] with its clock. *)
Lemma warning_entry_stamp (s : Globals) (c : Cycle) :
  phase s <> WarnPendingLeave -> phase (step s c) = WarnPendingLeave ->
  userNear (distance c) = true /\
  absenceStartTime (step s c) = at_warning_entry (clock c).
Proof.
  destruct s as [? ? ? ? ? ? p r f w ? ? ? ?]. exec.
  destruct w; [intros H; exfalso; apply H; reflexivity |].
  intros _.
  destruct r, (userNear _), p; exec; split_ifs; intros H;
    try discriminate H; split; reflexivity.
Qed.

(** Through passes that all end in the warning state, [absenceStartTime]
    is the clock of the last pass that saw the user. *)
Lemma warning_run_timer (cs : list Cycle) :
  forall s : Globals,
    phase s = WarnPendingLeave -> warningThrough s cs = true ->
    phase (run s cs) = WarnPendingLeave /\
    absenceStartTime (run s cs) = lastSighting (absenceStartTime s) cs.
Proof.
  induction cs as [| c cs IH]; intros s Hs Hcs.
  - split; [exact Hs | reflexivity].
  - cbn [warningThrough] in Hcs. cbn [lastSighting].
    change (run s (c :: cs)) with (run (step s c) cs).
    destruct (phase (step s c)) eqn:Ep; try discriminate Hcs.
    destruct (IH (step s c) Ep Hcs) as [Hp Ht].
    split; [exact Hp |]. rewrite Ht. f_equal.
    destruct (warning_pass s c Hs) as (Hnear & _ & Hrest & _).
    destruct (userNear (distance c)) eqn:En.
    + apply (Hnear eq_refl).
    + clear - Hs En Ep. flags. revert Ep En.
      destruct s as [? ? ? ? ? ? p r f w ? ? ? ?]. exec_in Hs. subst.
      exec. intros Ep ->. revert Ep. exec. split_ifs; reflexivity.
Qed.

(** From the pass that enters the warning state to the pass that leaves it:
    the machine leaves for rest mode exactly when the last pass does not
    see the user and measures at least 2000 ms since the last sighting,
    the entry pass counting as a sighting. *)
Lemma warning_run_exit (s : Globals) (c0 : Cycle) (cs : list Cycle)
  (c : Cycle) :
  phase s <> WarnPendingLeave ->
  phase (step s c0) = WarnPendingLeave ->
  warningThrough (step s c0) cs = true ->
  (phase (run s (c0 :: cs ++ [c])) = Resting <->
   userNear (distance c) = false /\
   2000 <= sub32 (at_absence_check (clock c))
                 (lastSighting (at_warning_entry (clock c0)) cs)) /\
  (phase (run s (c0 :: cs ++ [c])) <> Resting ->
   phase (run s (c0 :: cs ++ [c])) = WarnPendingLeave).
Proof.
  intros Hs He Hcs.
  destruct (warning_entry_stamp s c0 Hs He) as [_ Hstamp].
  destruct (warning_run_timer cs (step s c0) He Hcs) as [Hp Ht].
  unfold run. cbn [fold_left]. rewrite fold_left_app. cbn [fold_left].
  fold (run (step s c0) cs).
  destruct (warning_pass (run (step s c0) cs) c Hp) as (_ & _ & Hrest & Hstay).
  rewrite Ht, Hstamp in Hrest. split; [exact Hrest | exact Hstay].
Qed.

(** C2. In the warning state a pass that sees the user sets
    [absenceStartTime] to the clock and stays in the warning state; the
    machine moves to rest mode exactly on a pass that does not see the user
    and measures at least 2000 ms since [absenceStartTime], so only when at
    least 2000 ms of real time passed since the last reset; and any sequence
    of passes whose absences never reach 2000 ms since the last sighting
    leaves the machine in the warning state.  The pass that enters the
    warning state sees the user and stamps [absenceStartTime] itself, so
    over a whole stay in the warning state the 2000 ms are measured from the
    last pass that saw the user, the entry pass included: rest mode is
    reached exactly on a pass that does not see the user at least 2000 ms
    after that sighting, in what the sketch measures and in real time. *)
Theorem C2_warning_debounce :
  (forall (s : Globals) (c : Cycle),
      phase s = WarnPendingLeave ->
      (userNear (distance c) = true ->
         absenceStartTime (step s c) = at_absence_reset (clock c) /\
         phase (step s c) = WarnPendingLeave) /\
      (phase (step s c) = Resting <->
         userNear (distance c) = false /\
         2000 <= sub32 (at_absence_check (clock c)) (absenceStartTime s)) /\
      (phase (step s c) <> Resting -> phase (step s c) = WarnPendingLeave)) /\
  (forall (s : Globals) (c : Cycle) (t0 t : Z),
      phase s = WarnPendingLeave ->
      absenceStartTime s = wrap32 t0 ->
      at_absence_check (clock c) = wrap32 t ->
      t0 <= t ->
      phase (step s c) = Resting ->
      userNear (distance c) = false /\ 2000 <= t - t0) /\
  (forall (s : Globals) (cs : list Cycle),
      phase s = WarnPendingLeave ->
      absencesStayShort (absenceStartTime s) cs = true ->
      phase (run s cs) = WarnPendingLeave) /\
  (forall (s : Globals) (c : Cycle),
      phase s <> WarnPendingLeave ->
      phase (step s c) = WarnPendingLeave ->
      userNear (distance c) = true /\
      absenceStartTime (step s c) = at_warning_entry (clock c)) /\
  (forall (s : Globals) (c0 : Cycle) (cs : list Cycle) (c : Cycle),
      phase s <> WarnPendingLeave ->
      phase (step s c0) = WarnPendingLeave ->
      warningThrough (step s c0) cs = true ->
      (phase (run s (c0 :: cs ++ [c])) = Resting <->
       userNear (distance c) = false /\
       2000 <= sub32 (at_absence_check (clock c))
                     (lastSighting (at_warning_entry (clock c0)) cs)) /\
      (phase (run s (c0 :: cs ++ [c])) <> Resting ->
       phase (run s (c0 :: cs ++ [c])) = WarnPendingLeave) /\
      (forall t0 t : Z,
          lastSighting (at_warning_entry (clock c0)) cs = wrap32 t0 ->
          at_absence_check (clock c) = wrap32 t ->
          t0 <= t ->
          phase (run s (c0 :: cs ++ [c])) = Resting ->
          2000 <= t - t0)).
Proof.
  split; [| split; [| split; [| split]]].
  - intros s c Hs.
    destruct (warning_pass s c Hs) as (Hnear & _ & Hrest & Hstay).
    split; [exact Hnear | split; [exact Hrest | exact Hstay]].
  - intros s c t0 t Hs Ht0 Ht Hle Hr.
    destruct (warning_pass s c Hs) as (_ & _ & Hrest & _).
    apply Hrest in Hr. destruct Hr as [Hn Hge]. split; [exact Hn |].
    rewrite Ht0, Ht, sub32_elapsed in Hge.
    pose proof (wrap32_le (t - t0)). lia.
  - intros s cs. apply warning_persists.
  - intros s c. apply warning_entry_stamp.
  - intros s c0 cs c Hs He Hcs.
    destruct (warning_run_exit s c0 cs c Hs He Hcs) as [Hiff Hstay].
    split; [exact Hiff | split; [exact Hstay |]].
    intros t0 t Ht0 Ht Hle Hr.
    apply Hiff in Hr. destruct Hr as [_ Hge].
    rewrite Ht0, Ht, sub32_elapsed in Hge.
    pose proof (wrap32_le (t - t0)). lia.
Qed.

(** Witness, the scenario of the specification: 46 minutes at the desk with
    the default recommendation of 45 minutes, then away for 1.5 s, back, and
    away again for 1.75 s: the machine is still in the warning state.  A
    sighting in the warning state restarts the timer, and rest mode is
    entered on the pass that comes 2000 ms after the last sighting.  The
    entry pass at 2 700 000 ms stamps the timer: a user who leaves at once
    is still in the warning state 250 ms later and rests 2000 ms later;
    after a sighting at 2 760 000 ms the rest begins on the pass at
    2 762 000 ms. *)
Lemma C2_witness :
  phase (run initial [pass 30 400 100 0; pass 30 400 100 2700000])
  = WarnPendingLeave /\
  absenceStartTime
    (run initial [pass 30 400 100 0; pass 30 400 100 2700000;
                  pass 30 400 100 2760000]) = 2760000 /\
  phase (run initial [pass 30 400 100 0; pass 30 400 100 2700000;
                      pass 0 400 100 2702000]) = Resting /\
  2000 <= 2702000 - 2700000 /\
  phase (run initial
           [pass 30 400 100 0; pass 30 400 100 2700000;
            pass 30 400 100 2760000;
            pass 0 400 100 2760500; pass 0 400 100 2761000;
            pass 0 400 100 2761500;
            pass 30 400 100 2761750;
            pass 0 400 100 2762000; pass 0 400 100 2762750;
            pass 0 400 100 2763500])
  = WarnPendingLeave /\
  absenceStartTime
    (step (step initial (pass 30 400 100 0)) (pass 30 400 100 2700000))
  = 2700000 /\
  phase (run (step initial (pass 30 400 100 0))
           (pass 30 400 100 2700000 :: [] ++ [pass 0 400 100 2700250]))
  = WarnPendingLeave /\
  phase (run (step initial (pass 30 400 100 0))
           (pass 30 400 100 2700000
            :: [pass 30 400 100 2760000; pass 0 400 100 2761000]
               ++ [pass 0 400 100 2762000]))
  = Resting /\
  2000 <= 2762000 - 2760000.
Proof.
  assert (H : phase (run initial [pass 30 400 100 0;
                                  pass 30 400 100 2700000])
              = WarnPendingLeave) by (vm_compute; reflexivity).
  destruct C2_warning_debounce as (Hpass & Hreal & Hrun & Hentry & Hstay).
  assert (Hrest : phase (run initial [pass 30 400 100 0;
                                      pass 30 400 100 2700000;
                                      pass 0 400 100 2702000]) = Resting).
  { apply (proj1 (proj2 (Hpass _ (pass 0 400 100 2702000) H))).
    split; [reflexivity | vm_compute; discriminate]. }
  assert (Hf : phase (step initial (pass 30 400 100 0)) <> WarnPendingLeave)
    by (vm_compute; discriminate).
  assert (Hlong : phase (run (step initial (pass 30 400 100 0))
                           (pass 30 400 100 2700000
                            :: [pass 30 400 100 2760000;
                                pass 0 400 100 2761000]
                               ++ [pass 0 400 100 2762000])) = Resting).
  { apply (proj1 (Hstay (step initial (pass 30 400 100 0))
                    (pass 30 400 100 2700000)
                    [pass 30 400 100 2760000; pass 0 400 100 2761000]
                    (pass 0 400 100 2762000) Hf eq_refl eq_refl)).
    split; [reflexivity | vm_compute; discriminate]. }
  split; [exact H |]. split; [| split; [exact Hrest | split]].
  - apply (proj1 (Hpass _ (pass 30 400 100 2760000) H)). reflexivity.
  - apply (Hreal _ (pass 0 400 100 2702000) 2700000 2702000 H);
      [reflexivity | reflexivity | lia | exact Hrest].
  - split.
    + apply (Hrun (run initial [pass 30 400 100 0; pass 30 400 100 2700000])
               [pass 30 400 100 2760000;
                pass 0 400 100 2760500; pass 0 400 100 2761000;
                pass 0 400 100 2761500;
                pass 30 400 100 2761750;
                pass 0 400 100 2762000; pass 0 400 100 2762750;
                pass 0 400 100 2763500] H).
      vm_compute. reflexivity.
    + split; [| split; [| split; [exact Hlong |]]].
      * apply (Hentry (step initial (pass 30 400 100 0))
                 (pass 30 400 100 2700000) Hf eq_refl).
      * apply (proj1 (proj2 (Hstay (step initial (pass 30 400 100 0))
                               (pass 30 400 100 2700000) []
                               (pass 0 400 100 2700250) Hf eq_refl eq_refl))).
        intros Hr.
        apply (proj1 (Hstay (step initial (pass 30 400 100 0))
                        (pass 30 400 100 2700000) []
                        (pass 0 400 100 2700250) Hf eq_refl eq_refl)) in Hr.
        destruct Hr as [_ Hr]. vm_compute in Hr. apply Hr. reflexivity.
      * apply (proj2 (proj2 (Hstay (step initial (pass 30 400 100 0))
                               (pass 30 400 100 2700000)
                               [pass 30 400 100 2760000;
                                pass 0 400 100 2761000]
                               (pass 0 400 100 2762000) Hf eq_refl eq_refl))
                 2760000 2762000);
          [reflexivity | reflexivity | lia | exact Hlong].
Defined.


(** Symbolic execution of one pass of the Feedback Station. *)
Ltac exec_station :=
  cbv beta iota zeta delta
    [FeedbackStation.step FeedbackStation.outputs FeedbackStation.loop
     FeedbackStation.recompute FeedbackStation.presenceUpdate
     FeedbackStation.enterRest FeedbackStation.restMode
     FeedbackStation.postRest FeedbackStation.statusDecision
     FeedbackStation.currentFocusMs FeedbackStation.restElapsedMs
     FeedbackStation.safeSetStatusColor FeedbackStation.setEnvironmentLight
     FeedbackStation.atDecision FeedbackStation.lastColor
     andThen when ifte assign emit skip fst snd app filter
     isStatusShow isEnvShow
     FeedbackStation.recommendedFocusTime FeedbackStation.dynamicRestTime
     FeedbackStation.isPresent FeedbackStation.breakWarning
     FeedbackStation.inRestMode FeedbackStation.restFinished
     FeedbackStation.focusStartTime FeedbackStation.totalFocusTime
     FeedbackStation.restStartTime FeedbackStation.lastColorChangeTime
     FeedbackStation.lastR FeedbackStation.lastG FeedbackStation.lastB
     FeedbackStation.envOn
     FeedbackStation.set_recommendedFocusTime
     FeedbackStation.set_dynamicRestTime FeedbackStation.set_isPresent
     FeedbackStation.set_breakWarning FeedbackStation.set_inRestMode
     FeedbackStation.set_restFinished FeedbackStation.set_focusStartTime
     FeedbackStation.set_totalFocusTime FeedbackStation.set_restStartTime
     FeedbackStation.set_last FeedbackStation.set_envOn
     FeedbackStation.distance FeedbackStation.noiseVal FeedbackStation.lux
     FeedbackStation.clock];
  cbn [negb andb orb].

(** Without a focus segment and outside the rest-related states, a pass
    writes no status color. *)
Lemma absent_pass_keeps_color (s : Globals) (c : Cycle) :
  waitingForUserToLeave s = false -> inRestMode s = false ->
  restFinished s = false ->
  isPresent (atDecision s c) = false ->
  lastColor (step s c) = lastColor s /\
  filter isStatusShow (outputs s c) = [].
Proof.
  rewrite presence_tracks_near.
  destruct s as [? ? ? ? ? ? p r f w ? ? ? ?]. exec.
  intros -> -> -> ->. exec.
  destruct p; exec; split; reflexivity.
Qed.

Lemma station_absent_pass_keeps_color
  (s : FeedbackStation.Globals) (c : FeedbackStation.Cycle) :
  FeedbackStation.inRestMode s = false ->
  FeedbackStation.restFinished s = false ->
  FeedbackStation.isPresent (FeedbackStation.atDecision s c) = false ->
  FeedbackStation.lastColor (FeedbackStation.step s c)
  = FeedbackStation.lastColor s /\
  FeedbackStation.lastColorChangeTime (FeedbackStation.step s c)
  = FeedbackStation.lastColorChangeTime s /\
  filter isStatusShow (FeedbackStation.outputs s c) = [].
Proof.
  destruct s as [? ? p ? r f ? ? ? ? ? ? ? ?]. exec_station.
  intros -> ->. exec_station.
  destruct (userNear _), p; exec_station; intros H;
    try discriminate H; repeat split; reflexivity.
Qed.

(** C7. On a pass where the user is absent ([isPresent] false at the status
    decision) and the machine is in none of the rest-related states, no
    status color is written: [lastR], [lastG], [lastB] keep their values
    and nothing is pushed to the status strip.  This holds in the
    Focus/Rest sketch and in the Feedback Station sketch. *)
Theorem C7_absence_keeps_last_status_color :
  (forall (s : Globals) (c : Cycle),
      phase s = Idle \/ phase s = Focusing ->
      isPresent (atDecision s c) = false ->
      lastColor (step s c) = lastColor s /\
      filter isStatusShow (outputs s c) = []) /\
  (forall (s : FeedbackStation.Globals) (c : FeedbackStation.Cycle),
      FeedbackStation.inRestMode s = false ->
      FeedbackStation.restFinished s = false ->
      FeedbackStation.isPresent (FeedbackStation.atDecision s c) = false ->
      FeedbackStation.lastColor (FeedbackStation.step s c)
      = FeedbackStation.lastColor s /\
      filter isStatusShow (FeedbackStation.outputs s c) = []).
Proof.
  split.
  - intros s c [H | H] Ha; flags;
      apply absent_pass_keeps_color; assumption.
  - intros s c Hr Hf Ha.
    destruct (station_absent_pass_keeps_color s c Hr Hf Ha) as (H1 & _ & H2).
    split; assumption.
Qed.

(** Witness: the user sat down in good conditions (green status), then
    leans back out of range: the status strip stays green, in both
    sketches. *)
Lemma C7_witness :
  lastColor (step (step initial (pass 50 100 500 0)) (pass 150 100 500 1000))
  = (0, 40, 0) /\
  filter isStatusShow
    (outputs (step initial (pass 50 100 500 0)) (pass 150 100 500 1000)) = [] /\
  FeedbackStation.lastColor
    (FeedbackStation.step
       (FeedbackStation.step FeedbackStation.initial
          (FeedbackStation.pass 50 100 500 5000))
       (FeedbackStation.pass 150 100 500 6000))
  = (0, 40, 0).
Proof.
  destruct C7_absence_keeps_last_status_color as [Hfr Hst].
  destruct (Hfr (step initial (pass 50 100 500 0)) (pass 150 100 500 1000))
    as [H1 H2]; [right; reflexivity | reflexivity |].
  split; [exact H1 | split; [exact H2 |]].
  apply (Hst (FeedbackStation.step FeedbackStation.initial
                (FeedbackStation.pass 50 100 500 5000))
             (FeedbackStation.pass 150 100 500 6000));
    reflexivity.
Defined.


(** The room light after one pass, by the branch of [loop] that ran. *)
Lemma env_light_warning (s : Globals) (c : Cycle) :
  phase s = WarnPendingLeave ->
  envOn (step s c) = envOn s /\ filter isEnvShow (outputs s c) = [].
Proof.
  intros H. flags.
  destruct s as [? ? ? ? ? ? p r f w ? ? ? ?]. exec_in H. subst.
  exec. destruct (userNear _); exec; split_ifs; split; reflexivity.
Qed.

Lemma env_light_resting (s : Globals) (c : Cycle) :
  phase s = Resting ->
  envOn (step s c) = false /\
  filter isEnvShow (outputs s c) = [EnvShow false] /\
  phase (step s c) <> WarnPendingLeave.
Proof.
  intros H. flags.
  destruct s as [? ? ? ? ? ? p r f w ? ? ? ?]. exec_in H. exec_in H0. subst.
  exec. destruct (userNear _); exec; split_ifs;
    repeat split; try reflexivity; discriminate.
Qed.

Lemma env_light_normal (s : Globals) (c : Cycle) :
  waitingForUserToLeave s = false -> inRestMode s = false ->
  (phase (step s c) = WarnPendingLeave ->
     envOn (step s c) = envOn s /\ filter isEnvShow (outputs s c) = []) /\
  (phase (step s c) <> WarnPendingLeave ->
     envOn (step s c) = tooDark (lux c)).
Proof.
  destruct s as [? ? ? ? ? ? p r f w ? ? ? ?]. exec. intros -> ->. exec.
  destruct (userNear _), p, f; exec; split_ifs;
    split; intros H; try (split; reflexivity); try reflexivity;
    try discriminate H; try (exfalso; apply H; reflexivity).
Qed.

(** C8, as the code has it.  In rest mode the room light is forced off.  On
    a pass that starts outside the warning state and outside rest mode and
    does not enter the warning state, the light ends the pass on exactly
    when [lux < MIN_LUX].  On a pass in the warning state and on the pass
    that enters it, [loop] returns before the light is set: the light keeps
    its state and nothing is pushed to the environment strip. *)
Theorem C8_env_light_by_branch :
  forall (s : Globals) (c : Cycle),
    (phase s = Resting ->
       envOn (step s c) = false /\
       filter isEnvShow (outputs s c) = [EnvShow false]) /\
    (phase s = WarnPendingLeave \/ phase (step s c) = WarnPendingLeave ->
       envOn (step s c) = envOn s /\
       filter isEnvShow (outputs s c) = []) /\
    (phase s <> WarnPendingLeave -> phase s <> Resting ->
     phase (step s c) <> WarnPendingLeave ->
       envOn (step s c) = tooDark (lux c)).
Proof.
  intros s c. split; [| split].
  - intros H. destruct (env_light_resting s c H) as (H1 & H2 & _).
    split; assumption.
  - intros [H | H]; [apply env_light_warning; exact H |].
    destruct (waitingForUserToLeave s) eqn:Ew.
    { apply env_light_warning, phase_WarnPendingLeave; exact Ew. }
    destruct (inRestMode s) eqn:Er.
    { exfalso.
      assert (Hr : phase s = Resting) by (apply phase_Resting; auto).
      destruct (env_light_resting s c Hr) as (_ & _ & Hn). exact (Hn H). }
    apply (proj1 (env_light_normal s c Ew Er)); exact H.
  - intros Hw Hr Hn.
    destruct (waitingForUserToLeave s) eqn:Ew.
    { exfalso. apply Hw, phase_WarnPendingLeave; exact Ew. }
    destruct (inRestMode s) eqn:Er.
    { exfalso. apply Hr, phase_Resting; auto. }
    apply (proj2 (env_light_normal s c Ew Er)); exact Hn.
Qed.

(** Witness: a dark room switches the light on in normal mode; in rest mode
    the light is off in the same dark room; in the warning state the light
    keeps its state. *)
Lemma C8_witness :
  envOn (step initial (pass 50 100 10 0)) = true /\
  envOn (step (run initial [pass 50 100 500 0; pass 50 100 500 3600000;
                            pass 0 100 500 3602000])
              (pass 0 100 10 3602250)) = false /\
  envOn (step (run initial [pass 50 100 500 0; pass 50 100 500 3600000])
              (pass 50 100 10 3600250)) = false.
Proof.
  split; [| split].
  - apply (proj2 (proj2 (C8_env_light_by_branch initial (pass 50 100 10 0))));
      vm_compute; discriminate.
  - apply (proj1 (C8_env_light_by_branch
             (run initial [pass 50 100 500 0; pass 50 100 500 3600000;
                           pass 0 100 500 3602000])
             (pass 0 100 10 3602250))).
    vm_compute. reflexivity.
  - apply (proj1 (proj2 (C8_env_light_by_branch
             (run initial [pass 50 100 500 0; pass 50 100 500 3600000])
             (pass 50 100 10 3600250)))).
    left. vm_compute. reflexivity.
Defined.

(** C8 as stated fails in the warning state: the user worked 60 minutes in
    good light (room light off), the warning state began, and then the room
    went dark; the pass is outside rest mode, the snapshot is too dark, and
    the room light stays off. *)
Lemma C8_counterexample : ~ envLightFollowsDarkness.
Proof.
  intros H.
  specialize (H (run initial [pass 50 100 500 0; pass 50 100 500 3600000])
                (pass 50 100 10 3600250)).
  assert (Hr : reachable
                 (run initial [pass 50 100 500 0; pass 50 100 500 3600000])).
  { apply (reachable_step _ (pass 50 100 500 3600000)),
      (reachable_step _ (pass 50 100 500 0)), reachable_initial. }
  specialize (H Hr). vm_compute in H.
  assert (Hf : false = true) by (apply H; discriminate).
  discriminate Hf.
Qed.


(** The status decision is only taken with a valid distance: its
    invalid-distance branch never runs. *)
Lemma status_decision_sees_valid_distance (s : Globals) (c : Cycle) :
  isPresent (atDecision s c) = true -> validDistance (distance c) = true.
Proof.
  rewrite presence_tracks_near. apply userNear_validDistance.
Qed.

(** What the invalid-distance branch of the status decision would write. *)
Lemma status_decision_invalid_branch (s : Globals) (c : Cycle) :
  isPresent s = true -> validDistance (distance c) = false ->
  lastColor (fst (statusDecision c s))
  = if tooNoisy (noiseVal c) then (40, 40, 0) else (0, 0, 0).
Proof.
  destruct s as [? ? ? ? ? ? p r f w ? ? ? ?]. exec. intros -> ->.
  unfold tooNoisy. exec. split_ifs; bool_facts; subst; reflexivity.
Qed.

(** C9, what the code does.  A pass that starts in a focus segment and
    reads an invalid distance closes the segment in the presence update;
    the status decision is then skipped, so neither (40,40,0) nor (0,0,0)
    is written: the status strip keeps its color. *)
Theorem C9_invalid_distance_leaves_status_color :
  forall (s : Globals) (c : Cycle),
    phase s = Focusing -> validDistance (distance c) = false ->
    isPresent (atDecision s c) = false /\
    phase (step s c) = Idle /\
    lastColor (step s c) = lastColor s /\
    filter isStatusShow (outputs s c) = [].
Proof.
  intros s c Hf Hv.
  assert (Ha : isPresent (atDecision s c) = false).
  { rewrite presence_tracks_near. apply invalid_not_near. exact Hv. }
  split; [exact Ha |].
  flags.
  destruct (absent_pass_keeps_color s c) as [Hc Ho]; try assumption.
  split; [| split; assumption].
  apply invalid_not_near in Hv. revert Hv.
  destruct s as [? ? ? ? ? ? p r f w ? ? ? ?].
  exec_in H. exec_in H0. exec_in H1. exec_in H2. subst.
  exec. intros ->. exec. reflexivity.
Qed.

(** The user is at the desk in a quiet, bright room (green status); then
    the echo times out ([getDistanceCM] returns 0): the strip is still
    green, not (0,0,0). *)
Lemma C9_witness :
  lastColor (step initial (pass 50 100 500 0)) = (0, 40, 0) /\
  validDistance (distance (pass 0 100 500 1000)) = false /\
  lastColor (step (step initial (pass 50 100 500 0)) (pass 0 100 500 1000))
  = (0, 40, 0) /\
  lastColor (step (step initial (pass 50 100 500 0)) (pass 0 400 500 1000))
  = (0, 40, 0).
Proof.
  split; [reflexivity |]. split; [reflexivity |]. split.
  - apply (C9_invalid_distance_leaves_status_color
             (step initial (pass 50 100 500 0)) (pass 0 100 500 1000));
      reflexivity.
  - apply (C9_invalid_distance_leaves_status_color
             (step initial (pass 50 100 500 0)) (pass 0 400 500 1000));
      reflexivity.
Defined.


Lemma wrap32_range (x : Z) : 0 <= wrap32 x < ULONG_MOD.
Proof. unfold wrap32, ULONG_MOD. apply Z.mod_pos_bound. lia. Qed.

Lemma add32_no_wrap (a b : Z) :
  0 <= a -> 0 <= b -> a + b < ULONG_MOD -> add32 a b = a + b.
Proof.
  intros Ha Hb H. unfold add32, wrap32. apply Z.mod_small. lia.
Qed.

(** The two segment-close events exclude each other. *)
Lemma close_events_exclusive (s : Globals) (c : Cycle) :
  closesOnLeave s c = true -> closesOnLimit s c = false.
Proof.
  destruct s as [? ? ? ? ? ? p r f w ? ? ? ?]. exec.
  destruct w, r, p, (userNear _); exec;
    intros H; try discriminate H; reflexivity.
Qed.

(** [totalFocusTime] after one pass. *)
Lemma total_after_pass (s : Globals) (c : Cycle) :
  totalFocusTime (step s c)
  = if closesOnLeave s c || closesOnLimit s c
    then add32 (totalFocusTime s) (elapsedAtClose s c)
    else totalFocusTime s.
Proof.
  unfold elapsedAtClose.
  destruct s as [? ? ? ? ? ? p r f w ? ? ? ?]. exec.
  destruct w, r, p, (userNear _); exec; split_ifs;
    try reflexivity; try discriminate.
Qed.

Lemma elapsedAtClose_nonneg (s : Globals) (c : Cycle) :
  0 <= elapsedAtClose s c.
Proof.
  unfold elapsedAtClose, currentFocus.
  destruct (closesOnLeave s c); [apply wrap32_range |].
  destruct (closesOnLimit s c); [| lia].
  destruct (isPresent _); [apply wrap32_range | lia].
Qed.

(** In RestFinished with the flags of a reachable state, the total changes
    only if the user returns and the clock advances by a whole recommended
    time between two reads of the same pass. *)
Lemma rest_finished_no_close (s : Globals) (c : Cycle) :
  phase s = RestFinished -> exclusiveFlags s ->
  sub32 (at_current_focus (clock c)) (at_focus_start (clock c)) < 25 * 60000 ->
  closesOnLeave s c = false /\ closesOnLimit s c = false.
Proof.
  intros H Hx Hq. flags. revert Hx Hq.
  destruct c as [d n l m].
  set (c := mkCycle d n l m).
  pose proof (calculateRecommendedTime_minutes (lux c) (noiseVal c)
                (distanceArg (distance c))) as Hm.
  pose proof (recommendedMinutes_bounds (lux c) (noiseVal c)
                (distanceArg (distance c))) as Hb.
  unfold exclusiveFlags.
  destruct s as [? ? ? ? ? ? p r f w ? ? ? ?].
  exec_in H. exec_in H0. exec_in H1. subst. subst c. exec_in Hm. exec_in Hb.
  exec. intros Hx Hq.
  destruct p; [exfalso; intuition discriminate |].
  destruct (userNear _); exec; split; try reflexivity.
  apply Z.leb_gt. lia.
Qed.

(** C10, as the code has it.  [totalFocusTime] changes only on the two
    segment-close events: the user leaves during a focus segment (it becomes
    the 32-bit sum of the total and [millis() - focusStartTime]) and the
    forced close on entering the warning state (the 32-bit sum of the total
    and [currentFocus]).  On every other pass it is unchanged, in particular
    in the warning state, in rest mode and in RestFinished.  It does not
    decrease as long as the 32-bit sum does not wrap. *)
Theorem C10_total_focus_changes_only_on_close :
  forall (s : Globals) (c : Cycle),
    (closesOnLeave s c = true ->
       totalFocusTime (step s c)
       = add32 (totalFocusTime s)
               (sub32 (at_focus_close (clock c)) (focusStartTime s))) /\
    (closesOnLimit s c = true ->
       phase (step s c) = WarnPendingLeave /\
       totalFocusTime (step s c)
       = add32 (totalFocusTime s) (currentFocus c (atDecision s c))) /\
    (closesOnLeave s c = false -> closesOnLimit s c = false ->
       totalFocusTime (step s c) = totalFocusTime s) /\
    (phase s = WarnPendingLeave \/ phase s = Resting ->
       totalFocusTime (step s c) = totalFocusTime s) /\
    (phase s = RestFinished -> reachable s ->
     sub32 (at_current_focus (clock c)) (at_focus_start (clock c))
     < 25 * 60000 ->
       totalFocusTime (step s c) = totalFocusTime s) /\
    (0 <= totalFocusTime s ->
     totalFocusTime s + elapsedAtClose s c < ULONG_MOD ->
       totalFocusTime s <= totalFocusTime (step s c) /\
       totalFocusTime (step s c) = totalFocusTime s + elapsedAtClose s c).
Proof.
  intros s c.
  pose proof (total_after_pass s c) as Ht.
  split; [| split; [| split; [| split; [| split]]]].
  - intros Hl. rewrite Ht. unfold elapsedAtClose. rewrite Hl. reflexivity.
  - intros Hl. split.
    + revert Hl. destruct s as [? ? ? ? ? ? p r f w ? ? ? ?]. exec.
      destruct w, r, p, (userNear _); exec; intros Hl;
        try discriminate Hl; rewrite Hl; exec; split_ifs; reflexivity.
    + rewrite Ht. unfold elapsedAtClose. rewrite Hl, orb_true_r.
      destruct (closesOnLeave s c) eqn:El; [| reflexivity].
      apply close_events_exclusive in El. congruence.
  - intros H1 H2. rewrite Ht, H1, H2. reflexivity.
  - intros H. rewrite Ht.
    assert (Hn : normalPass s = false).
    { unfold normalPass. destruct H as [H | H]; flags.
      - rewrite H. reflexivity.
      - rewrite H, H0. reflexivity. }
    unfold closesOnLeave, closesOnLimit. rewrite Hn. reflexivity.
  - intros Hp Hr Hq.
    destruct (rest_finished_no_close s c Hp
                (reachable_exclusiveFlags s Hr) Hq) as [H1 H2].
    rewrite Ht, H1, H2. reflexivity.
  - intros H0 Hlt.
    pose proof (elapsedAtClose_nonneg s c) as He.
    assert (Hs : totalFocusTime (step s c)
                 = totalFocusTime s + elapsedAtClose s c).
    { rewrite Ht.
      destruct (closesOnLeave s c || closesOnLimit s c) eqn:E.
      - apply add32_no_wrap; assumption.
      - apply orb_false_iff in E. destruct E as [E1 E2].
        unfold elapsedAtClose. rewrite E1, E2. lia. }
    split; [lia | exact Hs].
Qed.

(** Witness: a 20 minute segment closed by the user leaving takes the total
    from 0 to 1 200 000 ms; a segment that reaches the recommended 60
    minutes is closed on entering the warning state with 3 600 000 ms; the
    total then stays through the warning state, rest mode and
    RestFinished. *)
Lemma C10_witness :
  totalFocusTime
    (step (step initial (pass 50 100 500 0)) (pass 0 100 500 1200000))
  = 1200000 /\
  totalFocusTime
    (step (step initial (pass 50 100 500 0)) (pass 50 100 500 3600000))
  = 3600000 /\
  totalFocusTime (step initial (pass 0 100 500 0)) = 0 /\
  totalFocusTime
    (step (run initial [pass 50 100 500 0; pass 50 100 500 3600000])
          (pass 0 100 500 3602000)) = 3600000 /\
  totalFocusTime
    (step (run initial [pass 50 100 500 0; pass 50 100 500 3600000;
                        pass 0 100 500 3602000; pass 0 100 500 4202000])
          (pass 50 100 500 4300000)) = 3600000 /\
  0 <= totalFocusTime
         (step (step initial (pass 50 100 500 0)) (pass 0 100 500 1200000)).
Proof.
  split; [| split; [| split; [| split; [| split]]]].
  - apply (proj1 (C10_total_focus_changes_only_on_close
                    (step initial (pass 50 100 500 0))
                    (pass 0 100 500 1200000))).
    reflexivity.
  - apply (proj1 (proj2 (C10_total_focus_changes_only_on_close
                           (step initial (pass 50 100 500 0))
                           (pass 50 100 500 3600000)))).
    reflexivity.
  - apply (proj1 (proj2 (proj2 (C10_total_focus_changes_only_on_close
                                  initial (pass 0 100 500 0)))));
      reflexivity.
  - apply (proj1 (proj2 (proj2 (proj2
             (C10_total_focus_changes_only_on_close
                (run initial [pass 50 100 500 0; pass 50 100 500 3600000])
                (pass 0 100 500 3602000)))))).
    left. reflexivity.
  - apply (proj1 (proj2 (proj2 (proj2 (proj2
             (C10_total_focus_changes_only_on_close
                (run initial [pass 50 100 500 0; pass 50 100 500 3600000;
                              pass 0 100 500 3602000; pass 0 100 500 4202000])
                (pass 50 100 500 4300000))))))).
    + reflexivity.
    + apply (reachable_step _ (pass 0 100 500 4202000)),
        (reachable_step _ (pass 0 100 500 3602000)),
        (reachable_step _ (pass 50 100 500 3600000)),
        (reachable_step _ (pass 50 100 500 0)), reachable_initial.
    + vm_compute. reflexivity.
  - apply (proj2 (proj2 (proj2 (proj2 (proj2
             (C10_total_focus_changes_only_on_close
                (step initial (pass 50 100 500 0))
                (pass 0 100 500 1200000))))))).
    + vm_compute. discriminate.
    + vm_compute. reflexivity.
Defined.

(** C10 as stated fails when the 32-bit total wraps.  The run below is kept
    short by letting the first segment last 4 294 000 000 ms between two
    passes; with passes 200 ms apart the same total is reached after 49.7
    days of accumulated focus time.  The next segment of 20 minutes is
    closed by the user leaving, and the total drops from 4 294 000 000 to
    232 704. *)
Lemma C10_counterexample : ~ totalFocusNeverDecreases.
Proof.
  intros H.
  specialize (H (run initial
                   [pass 50 100 500 0; pass 50 100 500 4294000000;
                    pass 0 100 500 4294003000; pass 0 100 500 535704;
                    pass 50 100 500 600000])
                (pass 0 100 500 1800000)).
  assert (Hr : reachable
                 (run initial
                    [pass 50 100 500 0; pass 50 100 500 4294000000;
                     pass 0 100 500 4294003000; pass 0 100 500 535704;
                     pass 50 100 500 600000])).
  { apply (reachable_step _ (pass 50 100 500 600000)),
      (reachable_step _ (pass 0 100 500 535704)),
      (reachable_step _ (pass 0 100 500 4294003000)),
      (reachable_step _ (pass 50 100 500 4294000000)),
      (reachable_step _ (pass 50 100 500 0)), reachable_initial. }
  specialize (H Hr). vm_compute in H. apply H. reflexivity.
Qed.


(** Whatever [recommendedFocusTime] and [dynamicRestTime] held before the
    pass is overwritten before it is read. *)
Lemma recompute_overwrites (s : Globals) (c : Cycle) (r d : Z) :
  loop c (set_recommendedFocusTime r (set_dynamicRestTime d s)) = loop c s.
Proof.
  destruct s as [? ? ? ? ? ? p ? ? ? ? ? ? ?]. reflexivity.
Qed.

Lemma recomputed_targets (s : Globals) (c : Cycle) :
  recommendedFocusTime (step s c)
  = calculateRecommendedTime (lux c) (noiseVal c) (distanceArg (distance c)) /\
  dynamicRestTime (step s c) = calculateRestTime (lux c) (noiseVal c).
Proof.
  destruct s as [? ? ? ? ? ? p r f w ? ? ? ?]. exec.
  destruct w, r; exec; split_ifs; split; reflexivity.
Qed.

(** The exit check of a focus segment in progress. *)
Lemma focus_exit_check (s : Globals) (c : Cycle) :
  phase s = Focusing -> userNear (distance c) = true ->
  (phase (step s c) = WarnPendingLeave <->
   calculateRecommendedTime (lux c) (noiseVal c) (distanceArg (distance c))
   <= sub32 (at_current_focus (clock c)) (focusStartTime s)).
Proof.
  intros H Hn. flags. revert Hn.
  destruct s as [? ? ? ? ? ? p r f w ? ? ? ?].
  exec_in H. exec_in H0. exec_in H1. exec_in H2. subst.
  exec. intros ->. exec. split_ifs; bool_facts;
    intuition (try discriminate; try congruence; try lia).
Qed.

(** C1, as the code has it.  Both recommendations are recomputed from the
    snapshot at the top of every pass and overwrite the stored values, so
    the value stored on an earlier pass never takes part in a check.  A
    focus segment in progress enters the warning state exactly when the
    elapsed time reaches the recommendation computed on that same pass, and
    rest mode ends exactly when the user is away and the elapsed rest time
    reaches the rest recommendation computed on that same pass. *)
Theorem C1_exit_checks_use_live_recommendation :
  forall (s : Globals) (c : Cycle),
    (forall r d : Z,
        loop c (set_recommendedFocusTime r (set_dynamicRestTime d s))
        = loop c s) /\
    recommendedFocusTime (step s c)
    = calculateRecommendedTime (lux c) (noiseVal c)
                               (distanceArg (distance c)) /\
    dynamicRestTime (step s c) = calculateRestTime (lux c) (noiseVal c) /\
    (phase s = Focusing -> userNear (distance c) = true ->
     (phase (step s c) = WarnPendingLeave <->
      calculateRecommendedTime (lux c) (noiseVal c)
                               (distanceArg (distance c))
      <= sub32 (at_current_focus (clock c)) (focusStartTime s))) /\
    (phase s = Resting ->
     (phase (step s c) = RestFinished <->
      userNear (distance c) = false /\
      calculateRestTime (lux c) (noiseVal c) <= restElapsed c s)).
Proof.
  intros s c.
  destruct (recomputed_targets s c) as [Hf Hr].
  split; [intros r d; apply recompute_overwrites |].
  split; [exact Hf |]. split; [exact Hr |]. split.
  - apply focus_exit_check.
  - intros H. rewrite <- Hr.
    apply (rest_pass s c H).
Qed.

(** Witness: a focus segment in progress whose exit check fires on the pass
    that reads a worse snapshot, and a rest that ends on the pass whose own
    rest recommendation (10 minutes) has elapsed. *)
Lemma C1_witness :
  phase (step initial (pass 50 100 500 1000)) = Focusing /\
  userNear (distance (pass 15 700 50 1801000)) = true /\
  phase (step (step initial (pass 50 100 500 1000)) (pass 15 700 50 1801000))
  = WarnPendingLeave /\
  phase (step (run initial [pass 50 100 500 0; pass 50 100 500 3600000;
                            pass 0 100 500 3602000])
              (pass 0 100 500 4202000)) = RestFinished.
Proof.
  split; [reflexivity |]. split; [reflexivity |]. split.
  - apply (proj1 (proj2 (proj2 (proj2
             (C1_exit_checks_use_live_recommendation
                (step initial (pass 50 100 500 1000))
                (pass 15 700 50 1801000)))))).
    + reflexivity.
    + reflexivity.
    + vm_compute. discriminate.
  - apply (proj2 (proj2 (proj2 (proj2
             (C1_exit_checks_use_live_recommendation
                (run initial [pass 50 100 500 0; pass 50 100 500 3600000;
                              pass 0 100 500 3602000])
                (pass 0 100 500 4202000)))))).
    + reflexivity.
    + split; [reflexivity | vm_compute; discriminate].
Defined.

(** C1 as stated fails.  The user sits down at t = 1 s in a bright, quiet
    room at 50 cm: the segment begins with a recommendation of 60 minutes.
    Thirty minutes later the room is dark and loud and the user sits at
    15 cm: the recommendation of that pass is 25 minutes, and the segment,
    30 minutes old, is ended against it, not against the 60 minutes of its
    entry. *)
Lemma C1_counterexample : ~ focusTargetLatchedAtEntry.
Proof.
  intros H.
  specialize (H initial (pass 50 100 500 1000) (pass 15 700 50 1801000)
                eq_refl eq_refl eq_refl).
  destruct H as [H _].
  assert (Hle : recommendedFocusTime (step initial (pass 50 100 500 1000))
                <= sub32 (at_current_focus (clock (pass 15 700 50 1801000)))
                         (focusStartTime (step initial (pass 50 100 500 1000))))
    by (apply H; reflexivity).
  vm_compute in Hle. apply Hle. reflexivity.
Qed.


(** * Further properties of the sketches *)

(** ** Duration model *)

Import Extra.

Lemma Qgeb_le (x y : Q) (n : Z) :
  Qle x y -> Qgeb x n = true -> Qgeb y n = true.
Proof.
  unfold Qgeb. rewrite !Qle_bool_iff. intros Hxy Hn.
  eapply Qle_trans; eassumption.
Qed.

Lemma Qgtb_le (x y : Q) (n : Z) :
  Qle x y -> Qgtb x n = true -> Qgtb y n = true.
Proof.
  unfold Qgtb. rewrite !negb_true_iff, <- !not_true_iff_false, !Qle_bool_iff.
  intros Hxy Hn Hy. apply Hn. eapply Qle_trans; eassumption.
Qed.

Lemma Qltb_Qgtb_exclusive (x : Q) :
  Qltb x 80 = true -> Qgtb x 150 = false.
Proof.
  rewrite Qltb_spec. intros H. apply not_true_iff_false.
  rewrite Qgtb_spec. lia.
Qed.

(** The sum of [calculateRestTime] before its clamp. *)
Lemma restMinutes_cases (lux : Q) (noise : Z) :
  restMinutes lux noise
  = 15 + (if Qltb lux 80 then 5 else 0)
       + (if 650 <? noise then 5 else 0)
       - (if Qgtb lux 150 && (noise <? 250) then 5 else 0) /\
  10 <= restMinutes lux noise <= 25.
Proof.
  unfold restMinutes, clampMin.
  destruct (Qltb lux 80) eqn:El.
  - rewrite (Qltb_Qgtb_exclusive lux El). cbn [andb].
    destruct (Z.ltb_spec 650 noise); cbn; lia.
  - destruct (Z.ltb_spec 650 noise) as [Hn | Hn].
    + assert (Hq : (noise <? 250) = false) by (apply Z.ltb_ge; lia).
      rewrite Hq, andb_false_r. cbn. lia.
    + destruct (Qgtb lux 150 && (noise <? 250)); cbn; lia.
Qed.

Lemma calculateRestTime_minutes (lux : Q) (noise : Z) :
  calculateRestTime lux noise = restMinutes lux noise * 60000 /\
  FeedbackStation.calculateRestTime lux noise = restMinutes lux noise * 60000.
Proof.
  destruct (restMinutes_cases lux noise) as [_ Hb]. split.
  - unfold calculateRestTime. apply mul32_small. unfold ULONG_MOD. lia.
  - unfold FeedbackStation.calculateRestTime.
    rewrite (mul32_small _ 60) by (unfold ULONG_MOD; lia).
    rewrite mul32_small by (unfold ULONG_MOD; lia). lia.
Qed.

(** The rest recommendation is 10, 15, 20 or 25 minutes, never the 5 minutes
    of its lower clamp: the clamp never changes the sum.  It is 25 minutes
    exactly when the room is both dark (lux < 80) and loud (noise > 650),
    and 10 minutes exactly when it is bright (lux > 150) and quiet
    (noise < 250).  The Feedback Station computes the same value. *)
Theorem rest_time_is_10_to_25_minutes :
  forall (lux : Q) (noise : Z),
    (restMinutes lux noise = 10 \/ restMinutes lux noise = 15 \/
     restMinutes lux noise = 20 \/ restMinutes lux noise = 25) /\
    (restMinutes lux noise = 25 <->
     Qltb lux 80 = true /\ (650 <? noise) = true) /\
    (restMinutes lux noise = 10 <->
     Qgtb lux 150 = true /\ (noise <? 250) = true) /\
    calculateRestTime lux noise = restMinutes lux noise * 60000 /\
    FeedbackStation.calculateRestTime lux noise
    = restMinutes lux noise * 60000.
Proof.
  intros lux noise.
  destruct (restMinutes_cases lux noise) as [Hc Hb].
  assert (Hx : Qltb lux 80 = true -> Qgtb lux 150 = false)
    by apply Qltb_Qgtb_exclusive.
  split; [| split; [| split; [| split]]].
  - rewrite Hc.
    destruct (Qltb lux 80), (650 <? noise), (Qgtb lux 150 && (noise <? 250));
      cbn; auto.
  - rewrite Hc. destruct (Qltb lux 80) eqn:El.
    + rewrite (Hx eq_refl). cbn [andb].
      destruct (650 <? noise); cbn; intuition (try lia; try discriminate).
    + destruct (650 <? noise), (Qgtb lux 150 && (noise <? 250)); cbn;
        intuition (try lia; try discriminate).
  - rewrite Hc. destruct (Qltb lux 80) eqn:El.
    + rewrite (Hx eq_refl). cbn [andb].
      destruct (650 <? noise); cbn; intuition (try lia; try discriminate).
    + destruct (Z.ltb_spec 650 noise) as [Hn | Hn].
      * assert (Hq : (noise <? 250) = false) by (apply Z.ltb_ge; lia).
        rewrite Hq, andb_false_r. cbn.
        intuition (try lia; try discriminate).
      * destruct (Qgtb lux 150), (noise <? 250); cbn;
          intuition (try lia; try discriminate).
  - apply calculateRestTime_minutes.
  - apply calculateRestTime_minutes.
Qed.

Lemma clampMin_monotone (lo hi x y : Z) :
  x <= y -> clampMin lo hi x <= clampMin lo hi y.
Proof.
  intros H. unfold clampMin.
  destruct (Z.ltb_spec x lo), (Z.ltb_spec y lo); Z_bands; lia.
Qed.

Lemma clampMin_floor_monotone (lo lo' hi x : Z) :
  lo <= lo' -> lo' <= hi -> clampMin lo hi x <= clampMin lo' hi x.
Proof.
  intros H H'. unfold clampMin.
  destruct (Z.ltb_spec x lo), (Z.ltb_spec x lo'); Z_bands; lia.
Qed.

(** The lux bonus of both recommendation functions grows with the lux. *)
Lemma lux_bonus_monotone (x y : Q) (a b : Z) :
  Qle x y -> 0 <= b <= a ->
  (if Qgeb x 300 then a else if Qgeb x 150 then b
   else if Qltb x 80 then -10 else 0)
  <= (if Qgeb y 300 then a else if Qgeb y 150 then b
      else if Qltb y 80 then -10 else 0).
Proof.
  intros Hxy Hab. rewrite !Qltb_Qgeb.
  pose proof (Qgeb_le x y 300 Hxy) as H300.
  pose proof (Qgeb_le x y 150 Hxy) as H150.
  pose proof (Qgeb_le x y 80 Hxy) as H80.
  assert (H1 : Qgeb y 300 = true -> Qgeb y 150 = true).
  { rewrite !Qgeb_spec. lia. }
  destruct (Qgeb x 300), (Qgeb x 150), (Qgeb x 80);
    try (rewrite (H300 eq_refl)); try (rewrite (H150 eq_refl));
    try (rewrite (H80 eq_refl));
    destruct (Qgeb y 300) eqn:E3; try (rewrite (H1 eq_refl));
    destruct (Qgeb y 150), (Qgeb y 80); cbn; lia.
Qed.

Lemma noise_bonus_antitone (n m a b : Z) :
  m <= n -> 0 <= b <= a ->
  (if n <? 200 then a else if n <? 350 then b
   else if 650 <? n then -10 else 0)
  <= (if m <? 200 then a else if m <? 350 then b
      else if 650 <? m then -10 else 0).
Proof.
  intros H Hab. Z_bands; lia.
Qed.

Lemma recommendedSum_parts (lux : Q) (noise d : Z) :
  recommendedSum lux noise d
  = 45 + (if Qgeb lux 300 then 10 else if Qgeb lux 150 then 5
          else if Qltb lux 80 then -10 else 0)
       + (if noise <? 200 then 10 else if noise <? 350 then 5
          else if 650 <? noise then -10 else 0)
       + (if 40 <=? d then 5
          else if (d <? 20) && (0 <? d) then -5 else 0).
Proof.
  unfold recommendedSum. cbv zeta.
  destruct (Qgeb lux 300), (Qgeb lux 150), (Qltb lux 80),
    (noise <? 200), (noise <? 350), (650 <? noise),
    (40 <=? d), ((d <? 20) && (0 <? d)); reflexivity.
Qed.

Lemma final_recommendedSum_parts (lux : Q) (noise d : Z) :
  FinalVersion.recommendedSum lux noise d
  = 45 + (if Qgeb lux 300 then 5 else if Qgeb lux 150 then 0
          else if Qltb lux 80 then -10 else 0)
       + (if noise <? 200 then 5 else if noise <? 350 then 0
          else if 650 <? noise then -10 else 0)
       + (if 40 <=? d then 5
          else if (d <? 20) && (0 <? d) then -5 else 0).
Proof.
  unfold FinalVersion.recommendedSum. cbv zeta.
  destruct (Qgeb lux 300), (Qgeb lux 150), (Qltb lux 80),
    (noise <? 200), (noise <? 350), (650 <? noise),
    (40 <=? d), ((d <? 20) && (0 <? d)); reflexivity.
Qed.

(** Better conditions never shorten the recommended focus time: with more
    light and less noise at the same distance, [calculateRecommendedTime]
    returns at least as much, in the Focus/Rest sketch and in the Final
    Version. *)
Theorem recommended_time_monotone :
  forall (lux1 lux2 : Q) (noise1 noise2 distance : Z),
    Qle lux1 lux2 -> noise2 <= noise1 ->
    calculateRecommendedTime lux1 noise1 distance
    <= calculateRecommendedTime lux2 noise2 distance /\
    FinalVersion.calculateRecommendedTime lux1 noise1 distance
    <= FinalVersion.calculateRecommendedTime lux2 noise2 distance.
Proof.
  intros lux1 lux2 noise1 noise2 d Hl Hn.
  rewrite !calculateRecommendedTime_minutes,
    !final_calculateRecommendedTime_minutes.
  split.
  - apply Z.mul_le_mono_nonneg_r; [lia |].
    apply clampMin_monotone. rewrite !recommendedSum_parts.
    pose proof (lux_bonus_monotone lux1 lux2 10 5 Hl ltac:(lia)).
    pose proof (noise_bonus_antitone noise1 noise2 10 5 Hn ltac:(lia)).
    lia.
  - apply Z.mul_le_mono_nonneg_r; [lia |].
    apply clampMin_monotone. rewrite !final_recommendedSum_parts.
    pose proof (lux_bonus_monotone lux1 lux2 5 0 Hl ltac:(lia)).
    pose proof (noise_bonus_antitone noise1 noise2 5 0 Hn ltac:(lia)).
    lia.
Qed.

Lemma recommended_time_monotone_witness :
  Qle (inject_Z 100) (inject_Z 200) /\
  calculateRecommendedTime (inject_Z 100) 400 30
  <= calculateRecommendedTime (inject_Z 200) 300 30.
Proof.
  split; [unfold Qle; cbn; lia |].
  apply (recommended_time_monotone (inject_Z 100) (inject_Z 200) 400 300 30).
  - unfold Qle. cbn. lia.
  - lia.
Defined.

(** Better conditions never lengthen the rest: with more light and less
    noise [calculateRestTime] returns at most as much. *)
Theorem rest_time_antitone :
  forall (lux1 lux2 : Q) (noise1 noise2 : Z),
    Qle lux1 lux2 -> noise2 <= noise1 ->
    calculateRestTime lux2 noise2 <= calculateRestTime lux1 noise1.
Proof.
  intros lux1 lux2 noise1 noise2 Hl Hn.
  destruct (calculateRestTime_minutes lux1 noise1) as [H1 _].
  destruct (calculateRestTime_minutes lux2 noise2) as [H2 _].
  rewrite H1, H2. apply Z.mul_le_mono_nonneg_r; [lia |].
  destruct (restMinutes_cases lux1 noise1) as [C1 _].
  destruct (restMinutes_cases lux2 noise2) as [C2 _].
  rewrite C1, C2.
  pose proof (Qgeb_le lux1 lux2 80 Hl) as H80.
  pose proof (Qgtb_le lux1 lux2 150 Hl) as H150.
  rewrite !Qltb_Qgeb.
  destruct (Qgeb lux1 80); try (rewrite (H80 eq_refl));
    destruct (Qgtb lux1 150); try (rewrite (H150 eq_refl));
    destruct (Qgeb lux2 80), (Qgtb lux2 150); cbn [negb andb];
    Z_bands; lia.
Qed.

Lemma rest_time_antitone_witness :
  Qle (inject_Z 50) (inject_Z 200) /\
  calculateRestTime (inject_Z 200) 100 <= calculateRestTime (inject_Z 50) 700.
Proof.
  split; [unfold Qle; cbn; lia |].
  apply (rest_time_antitone (inject_Z 50) (inject_Z 200) 700 100).
  - unfold Qle. cbn. lia.
  - lia.
Defined.

(** The Final Version never recommends a longer focus time than the
    Focus/Rest sketch on the same readings. *)
Theorem final_version_recommends_no_more :
  forall (lux : Q) (noise distance : Z),
    FinalVersion.calculateRecommendedTime lux noise distance
    <= calculateRecommendedTime lux noise distance.
Proof.
  intros lux noise d.
  rewrite calculateRecommendedTime_minutes,
    final_calculateRecommendedTime_minutes.
  apply Z.mul_le_mono_nonneg_r; [lia |].
  unfold FinalVersion.recommendedMinutes, recommendedMinutes.
  transitivity (clampMin 20 60 (recommendedSum lux noise d)).
  - apply clampMin_monotone.
    rewrite recommendedSum_parts, final_recommendedSum_parts.
    destruct (Qgeb lux 300), (Qgeb lux 150), (Qltb lux 80),
      (noise <? 200), (noise <? 350), (650 <? noise); lia.
  - apply clampMin_floor_monotone; lia.
Qed.

(** As [loop] calls it, [calculateRecommendedTime] subtracts 5 minutes for
    the distance exactly when the user is too close, adds nothing for a
    valid distance from 20 to 39 cm, and adds 5 minutes otherwise: an
    invalid reading counts like a user sitting far back. *)
Theorem loop_distance_delta :
  forall (lux : Q) (noise distance : Z),
    recommendedSum lux noise (distanceArg distance)
    = 45 + Reference.luxDelta lux + Reference.noiseDelta noise
      + loopDistanceDelta distance.
Proof.
  intros lux noise d.
  rewrite recommendedSum_reference. unfold Reference.unclampedMinutes.
  f_equal.
  unfold Reference.distanceDelta, loopDistanceDelta, distanceArg,
    userTooClose, validDistance, TOO_CLOSE_DISTANCE.
  destruct (Z.ltb_spec 5 d), (Z.ltb_spec d 200); cbn [andb];
    Z_bands; cbn; lia.
Qed.


(** ** Session machine of the Focus/Rest sketch *)

(** Symbolic execution that also decides the comparisons of two color
    constants. *)
Ltac exec_colors :=
  exec;
  repeat match goal with
  | |- context [Z.eqb (Zpos ?p) (Zpos ?q)] =>
      let v := eval vm_compute in (Z.eqb (Zpos p) (Zpos q)) in
      change (Z.eqb (Zpos p) (Zpos q)) with v
  | |- context [Z.eqb 0 (Zpos ?q)] => change (Z.eqb 0 (Zpos q)) with false
  | |- context [Z.eqb (Zpos ?p) 0] => change (Z.eqb (Zpos p) 0) with false
  | |- context [Z.eqb 0 0] => change (Z.eqb 0 0) with true
  end;
  cbn [andb negb].

Ltac split_color_ifs :=
  repeat match goal with
  | |- context [if ?b then _ else _] =>
      lazymatch b with
      | context [if _ then _ else _] => fail
      | _ => let E := fresh "E" in destruct b eqn:E; exec_colors
      end
  end.

(** One pass moves the machine along an edge of its transition table, from
    any globals: rest mode is entered only from the warning state,
    RestFinished only from rest mode, and the warning state is left only
    towards rest mode. *)
Theorem phase_follows_edges :
  forall (s : Globals) (c : Cycle),
    edge (phase s) (phase (step s c)) = true.
Proof.
  intros s c.
  destruct s as [? ? ? ? ? ? p r f w ? ? ? ?]. exec.
  destruct w, r, f, p, (userNear _); exec; split_ifs; reflexivity.
Qed.

(** The outcome of a pass outside the warning state and rest mode: it
    enters the warning state when the focus time is reached, otherwise the
    user is tracked: near gives a focus segment, away gives Idle, or
    RestFinished when a rest was over and the user has not returned. *)
Theorem normal_pass_outcome :
  forall (s : Globals) (c : Cycle),
    normalPass s = true ->
    (closesOnLimit s c = true -> phase (step s c) = WarnPendingLeave) /\
    (closesOnLimit s c = false -> userNear (distance c) = true ->
       phase (step s c) = Focusing /\
       (isPresent s = false ->
          focusStartTime (step s c) = at_focus_start (clock c))) /\
    (userNear (distance c) = false ->
       phase (step s c) = (if restFinished s then RestFinished else Idle) /\
       focusStartTime (step s c) = focusStartTime s).
Proof.
  intros s c.
  destruct s as [? ? ? ? ? ? p r f w ? ? ? ?]. exec.
  destruct w, r; cbn; intros Hn; try discriminate Hn.
  destruct (userNear _), p, f; exec; split_ifs;
    repeat split; intros; try discriminate; try reflexivity; congruence.
Qed.

Lemma normal_pass_outcome_witness :
  phase (step initial (pass 50 100 500 1000)) = Focusing /\
  focusStartTime (step initial (pass 50 100 500 1000)) = 1000 /\
  phase (step (step initial (pass 50 100 500 1000)) (pass 50 100 500 3601000))
  = WarnPendingLeave /\
  phase (step (step initial (pass 50 100 500 1000)) (pass 150 100 500 2000))
  = Idle.
Proof.
  destruct (normal_pass_outcome initial (pass 50 100 500 1000) eq_refl)
    as (_ & Hnear & _).
  destruct (Hnear eq_refl eq_refl) as [Hp Hs].
  split; [exact Hp |]. split; [exact (Hs eq_refl) |]. split.
  - apply (proj1 (normal_pass_outcome (step initial (pass 50 100 500 1000))
                    (pass 50 100 500 3601000) eq_refl)).
    reflexivity.
  - apply (proj2 (proj2
             (normal_pass_outcome (step initial (pass 50 100 500 1000))
                (pass 150 100 500 2000) eq_refl))).
    reflexivity.
Defined.

(** After every pass the status color goes with the phase: red in the
    warning state and in rest mode, (20,20,0) in RestFinished, and in a
    focus segment the color of the current snapshot: blue when too close,
    else yellow when too noisy, else green.  Hence it does so in every
    reachable state. *)
Theorem status_color_goes_with_phase :
  (forall (s : Globals) (c : Cycle),
      phaseColorOk (step s c) /\
      (phase (step s c) = Focusing ->
       lastColor (step s c) = focusColor c)) /\
  (forall s : Globals, reachable s -> phaseColorOk s).
Proof.
  assert (H : forall s c,
             phaseColorOk (step s c) /\
             (phase (step s c) = Focusing ->
              lastColor (step s c) = focusColor c)).
  { intros s c. unfold phaseColorOk, focusColor, tooNoisy.
    destruct c as [d n l m].
    destruct s as [? ? ? ? ? ? p r f w ? ? ? ?]. exec.
    destruct (userNear d) eqn:En;
      [rewrite (userNear_validDistance d En) |];
      destruct w, r, f, p; exec_colors;
      try (destruct (userTooClose d)); exec_colors; split_color_ifs;
      split; intros; try discriminate; try exact I;
      bool_facts; subst; try lia; auto. }
  split; [exact H |].
  intros s Hr. destruct Hr as [| s c _]; [exact I | apply H].
Qed.

Lemma status_color_goes_with_phase_witness :
  lastColor (step initial (pass 10 100 500 1000)) = (0, 0, 40) /\
  lastColor (run initial [pass 50 100 500 0; pass 50 100 500 3600000;
                          pass 0 100 500 3602000]) = (40, 0, 0).
Proof.
  destruct status_color_goes_with_phase as [Hstep Hreach].
  split.
  - apply (proj2 (Hstep initial (pass 10 100 500 1000))). reflexivity.
  - apply (Hreach (run initial [pass 50 100 500 0; pass 50 100 500 3600000;
                                pass 0 100 500 3602000])).
    apply (reachable_step _ (pass 0 100 500 3602000)),
      (reachable_step _ (pass 50 100 500 3600000)),
      (reachable_step _ (pass 50 100 500 0)), reachable_initial.
Defined.

(** [safeSetStatusColor] keeps [lastR], [lastG], [lastB] equal to what the
    strip shows and never pushes the color already shown: replaying the
    pushes of a pass from the last color gives the last color after the
    pass, and every push changes the color. *)
Theorem status_pushes_change_color :
  forall (s : Globals) (c : Cycle),
    shownAfter (lastColor s) (outputs s c) = lastColor (step s c) /\
    everyPushChanges (lastColor s) (outputs s c) = true.
Proof.
  intros s c.
  destruct c as [d n l m].
  destruct s as [? ? ? ? ? ? p r f w lr lg lb ?]. exec.
  destruct w, r, f, p, (userNear d), (validDistance d), (userTooClose d);
    exec_colors; split_color_ifs;
    cbn [shownAfter everyPushChanges colorEqb negb andb];
    repeat match goal with
    | H : ?b = false |- context [?b] => rewrite H
    end;
    cbn [shownAfter everyPushChanges colorEqb negb andb];
    bool_facts; subst; split; reflexivity.
Qed.


(** A pass that finds a focus segment and leaves it running touches no
    timer and no total. *)
Lemma focusing_pass_keeps_timers (s : Globals) (c : Cycle) :
  phase s = Focusing -> phase (step s c) = Focusing ->
  focusStartTime (step s c) = focusStartTime s /\
  totalFocusTime (step s c) = totalFocusTime s /\
  restStartTime (step s c) = restStartTime s /\
  absenceStartTime (step s c) = absenceStartTime s.
Proof.
  intros H. flags.
  destruct s as [? ? ? ? ? ? p r f w ? ? ? ?].
  exec_in H. exec_in H0. exec_in H1. exec_in H2. subst. exec.
  destruct (userNear _); exec; split_ifs; intros; try discriminate;
    repeat split; reflexivity.
Qed.

(** While a focus segment runs below the recommended time, a pass changes
    nothing but the two recommendations, the status color and the room
    light; and a second pass with the same readings changes nothing at
    all. *)
Theorem focusing_pass_is_idempotent :
  forall (s : Globals) (c : Cycle),
    phase s = Focusing -> phase (step s c) = Focusing ->
    (focusStartTime (step s c) = focusStartTime s /\
     totalFocusTime (step s c) = totalFocusTime s /\
     restStartTime (step s c) = restStartTime s /\
     absenceStartTime (step s c) = absenceStartTime s) /\
    step (step s c) c = step s c /\
    filter isStatusShow (outputs (step s c) c) = [].
Proof.
  intros s c H Hf. split; [apply focusing_pass_keeps_timers; assumption |].
  revert Hf. flags.
  destruct c as [d n l m].
  destruct s as [? ? ? ? ? ? p r f w ? ? ? ?].
  exec_in H. exec_in H0. exec_in H1. exec_in H2. subst. exec.
  destruct (userNear d) eqn:En; exec;
    [rewrite (userNear_validDistance d En) | split_ifs; discriminate].
  exec.
  destruct (calculateRecommendedTime l n (distanceArg d)
            <=? sub32 (at_current_focus m) focusStartTime0) eqn:El; exec;
    [split_ifs; discriminate |].
  intros _.
  destruct (userTooClose d), (MAX_NOISE <? n); exec;
    repeat (first [ rewrite El
                  | rewrite !Z.eqb_refl
                  | match goal with
                    | H : ?b = _ |- context [?b] => rewrite H
                    end
                  | split_if ];
            exec);
    split; reflexivity.
Qed.

Lemma focusing_pass_is_idempotent_witness :
  phase (step initial (pass 50 100 500 0)) = Focusing /\
  totalFocusTime
    (step (step initial (pass 50 100 500 0)) (pass 50 400 500 60000)) = 0 /\
  focusStartTime
    (step (step initial (pass 50 100 500 0)) (pass 50 400 500 60000)) = 0.
Proof.
  split; [reflexivity |].
  destruct (focusing_pass_is_idempotent
              (step initial (pass 50 100 500 0)) (pass 50 400 500 60000)
              eq_refl eq_refl) as ((Hs & Ht & _) & _).
  split; [exact Ht | exact Hs].
Defined.

(** The [if (userNear)] block of "After rest" never runs in a reachable
    state: when the user returns, the presence update has already cleared
    [restFinished].  The pass does not depend on the clock read of that
    block. *)
Theorem after_rest_return_is_dead :
  forall (s : Globals) (c : Cycle) (t : Z),
    reachable s ->
    loop (withReturnClock t c) s = loop c s.
Proof.
  intros s c t Hr. apply reachable_exclusiveFlags in Hr. revert Hr.
  unfold exclusiveFlags.
  destruct c as [d n l [t1 t2 t3 t4 t5 t6 t7 t8 t9]].
  destruct s as [? ? ? ? ? ? p r f w ? ? ? ?]. exec. intros Hx.
  unfold withReturnClock, loop, recompute, warningState, restMode, focusMode,
    presenceUpdate, enterWarning, afterRest, statusDecision, focusTimeReached,
    currentFocus, restElapsed.
  exec.
  destruct p, f; try solve [exfalso; intuition discriminate];
    destruct w, r, (userNear d); reflexivity.
Qed.

Lemma after_rest_return_is_dead_witness :
  loop (withReturnClock 7 (pass 50 100 500 4300000))
       (run initial [pass 50 100 500 0; pass 50 100 500 3600000;
                     pass 0 100 500 3602000; pass 0 100 500 4202000])
  = loop (pass 50 100 500 4300000)
         (run initial [pass 50 100 500 0; pass 50 100 500 3600000;
                       pass 0 100 500 3602000; pass 0 100 500 4202000]).
Proof.
  apply (after_rest_return_is_dead
           (run initial [pass 50 100 500 0; pass 50 100 500 3600000;
                         pass 0 100 500 3602000; pass 0 100 500 4202000])
           (pass 50 100 500 4300000) 7).
  apply (reachable_step _ (pass 0 100 500 4202000)),
    (reachable_step _ (pass 0 100 500 3602000)),
    (reachable_step _ (pass 50 100 500 3600000)),
    (reachable_step _ (pass 50 100 500 0)), reachable_initial.
Defined.

(** While the machine waits for the user after a rest, every pass pushes
    the room light off and then pushes it again by the lux: the light ends
    the pass on when the room is dark, the status color is (20,20,0) and the
    machine keeps waiting. *)
Theorem rest_finished_pass_relights :
  forall (s : Globals) (c : Cycle),
    phase s = RestFinished -> userNear (distance c) = false ->
    filter isEnvShow (outputs s c)
    = [EnvShow false; EnvShow (tooDark (lux c))] /\
    envOn (step s c) = tooDark (lux c) /\
    lastColor (step s c) = (20, 20, 0) /\
    phase (step s c) = RestFinished.
Proof.
  intros s c H. flags. revert H H0 H1.
  destruct s as [? ? ? ? ? ? p r f w ? ? ? ?]. exec.
  intros -> -> -> ->. exec.
  destruct p; exec; split_ifs; bool_facts; subst; repeat split; reflexivity.
Qed.

Lemma rest_finished_pass_relights_witness :
  envOn (step (run initial [pass 50 100 500 0; pass 50 100 500 3600000;
                            pass 0 100 500 3602000; pass 0 100 500 4202000])
              (pass 0 100 10 4203000)) = true.
Proof.
  apply (rest_finished_pass_relights
           (run initial [pass 50 100 500 0; pass 50 100 500 3600000;
                         pass 0 100 500 3602000; pass 0 100 500 4202000])
           (pass 0 100 10 4203000)); reflexivity.
Defined.

(** A focus segment that goes on keeps its start time and the total. *)
Lemma focusing_run_keeps_timers (cs : list Cycle) :
  forall s : Globals,
    phase s = Focusing -> focusingThrough s cs = true ->
    phase (run s cs) = Focusing /\
    focusStartTime (run s cs) = focusStartTime s /\
    totalFocusTime (run s cs) = totalFocusTime s.
Proof.
  induction cs as [| c cs IH]; intros s Hs Hcs.
  - repeat split; assumption || reflexivity.
  - cbn [focusingThrough] in Hcs.
    change (run s (c :: cs)) with (run (step s c) cs).
    destruct (phase (step s c)) eqn:Ep; try discriminate Hcs.
    destruct (focusing_pass_keeps_timers s c Hs Ep) as (Hf & Ht & _).
    destruct (IH (step s c) Ep Hcs) as (H1 & H2 & H3).
    rewrite H2, H3, Hf, Ht. repeat split; assumption || reflexivity.
Qed.

(** Accounting of one focus segment over a whole run: the user sits down on
    a pass, the segment goes on through any number of passes, and the user
    leaves; [totalFocusTime] has then grown, in 32-bit arithmetic, by the
    time from the clock read that began the segment to the clock read that
    closed it, and the machine is Idle. *)
Theorem segment_accounting :
  forall (s : Globals) (c0 : Cycle) (cs : list Cycle) (cend : Cycle),
    phase s = Idle ->
    focusingThrough s (c0 :: cs) = true ->
    userNear (distance cend) = false ->
    totalFocusTime (run s (c0 :: cs ++ [cend]))
    = add32 (totalFocusTime s)
            (sub32 (at_focus_close (clock cend))
                   (at_focus_start (clock c0))) /\
    phase (run s (c0 :: cs ++ [cend])) = Idle.
Proof.
  intros s c0 cs cend Hs Hcs Hend.
  cbn [focusingThrough] in Hcs.
  destruct (phase (step s c0)) eqn:Ep; try discriminate Hcs.
  assert (H0 : focusStartTime (step s c0) = at_focus_start (clock c0) /\
               totalFocusTime (step s c0) = totalFocusTime s).
  { revert Ep. flags.
    destruct s as [? ? ? ? ? ? p r f w ? ? ? ?].
    exec_in H. exec_in H0. exec_in H1. exec_in H2. subst. exec.
    destruct (userNear _); exec; split_ifs; intros; try discriminate;
      split; reflexivity. }
  destruct H0 as [Hstart Htotal].
  destruct (focusing_run_keeps_timers cs (step s c0) Ep Hcs)
    as (Hp & Hf & Ht).
  unfold run. cbn [fold_left]. rewrite fold_left_app. cbn [fold_left].
  fold (run (step s c0) cs).
  set (s1 := run (step s c0) cs) in *.
  rewrite <- Htotal, <- Ht, <- Hstart, <- Hf.
  clearbody s1. clear - Hp Hend. flags. revert Hend.
  destruct s1 as [? ? ? ? ? ? p r f w ? ? ? ?].
  exec_in H. exec_in H0. exec_in H1. exec_in H2. subst. exec.
  intros ->. exec. split; reflexivity.
Qed.

Lemma segment_accounting_witness :
  totalFocusTime
    (run initial ([pass 50 100 500 1000; pass 30 100 500 2000;
                   pass 10 400 50 900000] ++ [pass 0 100 500 1201000]))
  = 1200000.
Proof.
  apply (segment_accounting initial (pass 50 100 500 1000)
           [pass 30 100 500 2000; pass 10 400 50 900000]
           (pass 0 100 500 1201000)); reflexivity.
Defined.


(** ** LCD of the Focus/Rest sketch *)

Import Display.

(** The globals at the decision point hold the recomputed recommendations. *)
Lemma atDecision_targets (s : Globals) (c : Cycle) :
  recommendedFocusTime (atDecision s c)
  = recommendedMinutes (lux c) (noiseVal c) (distanceArg (distance c)) * 60000
  /\ dynamicRestTime (atDecision s c)
     = restMinutes (lux c) (noiseVal c) * 60000.
Proof.
  rewrite <- calculateRecommendedTime_minutes.
  destruct (calculateRestTime_minutes (lux c) (noiseVal c)) as [Hr _].
  rewrite <- Hr.
  destruct s as [? ? ? ? ? ? p r f w ? ? ? ?]. exec.
  destruct (userNear _), p; exec; split; reflexivity.
Qed.

Lemma currentFocus_nonneg (c : Cycle) (s : Globals) : 0 <= currentFocus c s.
Proof.
  unfold currentFocus. destruct (isPresent s); [apply wrap32_range | lia].
Qed.

(** The page index is 0 or 1 after any run from the initial LCD globals.  A
    pass either leaves the LCD globals alone or flips the page and stamps
    [lastLcdUpdate]; it flips exactly when it runs the normal mode to its
    end and reads a clock more than 2000 ms after [lastLcdUpdate]: the
    rotation is frozen in the warning state, in rest mode and on the pass
    that enters the warning state. *)
Theorem lcd_page_rotation :
  (forall (s : Globals) (c : Cycle) (m : LcdMillis) (l : Lcd),
      lcdPage l = 0 \/ lcdPage l = 1 ->
      let l' := fst (lcdPass s c m l) in
      (normalPass s && negb (closesOnLimit s c)
       && (2000 <? sub32 (at_lcd_check m) (lastLcdUpdate l)) = true ->
         lcdPage l' = 1 - lcdPage l /\ lastLcdUpdate l' = at_lcd_set m) /\
      (normalPass s && negb (closesOnLimit s c)
       && (2000 <? sub32 (at_lcd_check m) (lastLcdUpdate l)) = false ->
         l' = l)) /\
  (forall (cs : list (Cycle * LcdMillis)) (s : Globals) (l : Lcd),
      lcdPage l = 0 \/ lcdPage l = 1 ->
      lcdPage (lcdRun s l cs) = 0 \/ lcdPage (lcdRun s l cs) = 1).
Proof.
  assert (Hpass : forall s c m l,
             lcdPage l = 0 \/ lcdPage l = 1 ->
             (normalPass s && negb (closesOnLimit s c)
              && (2000 <? sub32 (at_lcd_check m) (lastLcdUpdate l)) = true ->
                lcdPage (fst (lcdPass s c m l)) = 1 - lcdPage l /\
                lastLcdUpdate (fst (lcdPass s c m l)) = at_lcd_set m) /\
             (normalPass s && negb (closesOnLimit s c)
              && (2000 <? sub32 (at_lcd_check m) (lastLcdUpdate l)) = false ->
                fst (lcdPass s c m l) = l)).
  { intros s c m l Hl.
    unfold lcdPass, closesOnLimit, normalPass, rotate.
    destruct (waitingForUserToLeave s), (inRestMode s); cbn [negb andb fst];
      try (split; [discriminate | reflexivity]).
    destruct (focusTimeReached c (atDecision s c)); cbn [negb andb fst];
      [split; [discriminate | reflexivity] |].
    destruct (2000 <? sub32 (at_lcd_check m) (lastLcdUpdate l));
      cbn [fst lcdPage lastLcdUpdate];
      split; intros H; try discriminate H; try reflexivity.
    destruct Hl as [-> | ->]; split; reflexivity. }
  split; [exact Hpass |].
  induction cs as [| [c m] cs IH]; intros s l Hl; [exact Hl |].
  cbn [lcdRun]. apply IH.
  destruct (Hpass s c m l Hl) as [Hflip Hkeep].
  destruct (normalPass s && negb (closesOnLimit s c)
            && (2000 <? sub32 (at_lcd_check m) (lastLcdUpdate l))).
  - destruct (Hflip eq_refl) as [Hp _]. rewrite Hp. lia.
  - rewrite (Hkeep eq_refl). exact Hl.
Qed.

Lemma lcd_page_rotation_witness :
  lcdPage (fst (lcdPass initial (pass 50 100 500 3000)
                  (mkLcdMillis 3000 3001) initialLcd)) = 1 /\
  fst (lcdPass initial (pass 50 100 500 1500)
         (mkLcdMillis 1500 1501) initialLcd) = initialLcd /\
  (lcdPage (lcdRun initial initialLcd
              [(pass 50 100 500 3000, mkLcdMillis 3000 3001);
               (pass 50 100 500 6000, mkLcdMillis 6000 6001)]) = 0 \/
   lcdPage (lcdRun initial initialLcd
              [(pass 50 100 500 3000, mkLcdMillis 3000 3001);
               (pass 50 100 500 6000, mkLcdMillis 6000 6001)]) = 1).
Proof.
  destruct lcd_page_rotation as [Hpass Hrun].
  split; [| split].
  - apply (proj1 (Hpass initial (pass 50 100 500 3000)
                    (mkLcdMillis 3000 3001) initialLcd (or_introl eq_refl))).
    reflexivity.
  - apply (proj2 (Hpass initial (pass 50 100 500 1500)
                    (mkLcdMillis 1500 1501) initialLcd (or_introl eq_refl))).
    reflexivity.
  - apply (Hrun _ initial initialLcd). left. reflexivity.
Defined.

(** The numbers on the LCD.  On the progress page the minutes of the
    current segment are strictly below the recommended minutes, which lie
    between 25 and 60: a segment that has reached the recommendation is
    never displayed, the pass returns before it prints.  On the rest page
    the goal lies between 10 and 25 minutes. *)
Theorem lcd_numbers :
  forall (s : Globals) (c : Cycle) (m : LcdMillis) (l : Lcd),
    (forall total current rec : Z,
        snd (lcdPass s c m l) = Some (ProgressPage total current rec) ->
        0 <= current < rec /\ 25 <= rec <= 60 /\
        lcdPage (fst (lcdPass s c m l)) = 0) /\
    (forall elapsed goal : Z,
        snd (lcdPass s c m l) = Some (RestPage elapsed goal) ->
        0 <= elapsed /\ 10 <= goal <= 25 /\ phase s = Resting).
Proof.
  intros s c m l.
  destruct (atDecision_targets s c) as [Hrec Hrest].
  pose proof (recommendedMinutes_bounds (lux c) (noiseVal c)
                (distanceArg (distance c))) as Hb.
  destruct (restMinutes_cases (lux c) (noiseVal c)) as [_ Hrb].
  unfold lcdPass. split.
  - intros total current rec.
    destruct (waitingForUserToLeave s); [discriminate |].
    destruct (inRestMode s) eqn:Er; [discriminate |].
    destruct (focusTimeReached c (atDecision s c)) eqn:Ef; [discriminate |].
    cbn [fst snd].
    destruct (lcdPage (rotate m l) =? 0) eqn:Ep; [| discriminate].
    intros H. injection H as _ Hcur Hr. subst current rec.
    rewrite Hrec, Z.div_mul by lia.
    split; [| split; [exact Hb | apply Z.eqb_eq; exact Ep]].
    pose proof (currentFocus_nonneg c (atDecision s c)) as Hc.
    split; [apply Z.div_pos; lia |].
    apply Z.div_lt_upper_bound; [lia |].
    unfold focusTimeReached in Ef. rewrite Hrec in Ef.
    unfold currentFocus in *.
    destruct (isPresent (atDecision s c)) eqn:Ei.
    + assert (Hn : inRestMode (atDecision s c) = false).
      { revert Er. destruct s as [? ? ? ? ? ? p r f w ? ? ? ?]. exec.
        intros ->. destruct (userNear _), p; reflexivity. }
      rewrite Hn in Ef. cbn [negb andb] in Ef. apply Z.leb_gt in Ef. lia.
    + lia.
  - intros elapsed goal.
    destruct (waitingForUserToLeave s) eqn:Ew; [discriminate |].
    destruct (inRestMode s) eqn:Er.
    + cbn [snd]. intros H. injection H as He Hg. subst elapsed goal.
      rewrite Hrest, Z.div_mul by lia.
      split; [| split; [exact Hrb | apply phase_Resting; auto]].
      apply Z.div_pos; [| lia]. unfold restElapsed. apply wrap32_range.
    + destruct (focusTimeReached c (atDecision s c)); [discriminate |].
      cbn [snd]. destruct (lcdPage (rotate m l) =? 0); discriminate.
Qed.

Lemma lcd_numbers_witness :
  snd (lcdPass (step initial (pass 50 100 500 0)) (pass 50 100 500 1260000)
         (mkLcdMillis 1260000 1260001) initialLcd)
  = Some (EnvPage 100) /\
  snd (lcdPass (step initial (pass 50 100 500 0)) (pass 50 100 500 1260000)
         (mkLcdMillis 1000 1001) initialLcd)
  = Some (ProgressPage 21 21 60) /\
  0 <= 21 < 60.
Proof.
  split; [reflexivity |]. split; [reflexivity |].
  apply (proj1 (lcd_numbers (step initial (pass 50 100 500 0))
                  (pass 50 100 500 1260000)
                  (mkLcdMillis 1000 1001) initialLcd) 21 21 60).
  reflexivity.
Defined.


(** ** Feedback Station sketch *)

Ltac split_station_if :=
  match goal with
  | |- context [if ?b then _ else _] =>
      lazymatch b with
      | context [if _ then _ else _] => fail
      | _ => let E := fresh "E" in destruct b eqn:E; exec_station
      end
  end.

Ltac split_station_ifs := repeat split_station_if.

Lemma stationFlagsOk_step (s : FeedbackStation.Globals)
  (c : FeedbackStation.Cycle) :
  stationFlagsOk s -> stationFlagsOk (FeedbackStation.step s c).
Proof.
  unfold stationFlagsOk.
  destruct s as [? ? p bw r f ? ? ? ? ? ? ? ?]. exec_station.
  intros (Hb & Hp & Hr). subst bw.
  destruct r, f, p; cbn in Hp, Hr;
    try solve [exfalso; intuition discriminate];
    destruct (userNear _); exec_station; split_station_ifs;
    intuition (try discriminate; try congruence).
Qed.

Lemma stationReachable_flags (s : FeedbackStation.Globals) :
  stationReachable s -> stationFlagsOk s.
Proof.
  induction 1 as [| s c _ IH].
  - unfold stationFlagsOk. cbn. intuition discriminate.
  - apply stationFlagsOk_step. exact IH.
Qed.

(** In every state the Feedback Station reaches, at most one of
    [isPresent], [inRestMode], [restFinished] is set and [breakWarning]
    equals [inRestMode]; a pass keeps this, from any globals that have
    it. *)
Theorem station_flags_invariant :
  (forall s : FeedbackStation.Globals,
      stationReachable s -> stationFlagsOk s) /\
  (forall (s : FeedbackStation.Globals) (c : FeedbackStation.Cycle),
      stationFlagsOk s -> stationFlagsOk (FeedbackStation.step s c)).
Proof.
  split; [exact stationReachable_flags | exact stationFlagsOk_step].
Qed.

Lemma station_flags_invariant_witness :
  stationFlagsOk
    (FeedbackStation.step
       (FeedbackStation.step FeedbackStation.initial
          (FeedbackStation.pass 50 100 500 0))
       (FeedbackStation.pass 50 100 500 3600000)) /\
  FeedbackStation.inRestMode
    (FeedbackStation.step
       (FeedbackStation.step FeedbackStation.initial
          (FeedbackStation.pass 50 100 500 0))
       (FeedbackStation.pass 50 100 500 3600000)) = true.
Proof.
  split; [| reflexivity].
  apply (proj1 station_flags_invariant).
  apply stationReachable_step, stationReachable_step, stationReachable_initial.
Defined.

(** Rest mode of the Feedback Station.  It begins on the pass on which the
    running segment reaches the recommended time, with the user still at the
    desk: that pass adds the segment to the total, stamps [restStartTime]
    and cannot end the rest.  In rest mode presence is not tracked and the
    total is frozen; the rest ends exactly on a pass that does not see the
    user once [dynamicRestTime] has elapsed.  Outside rest mode a pass
    enters it exactly when it sees the user and the running segment,
    measured after the presence tracking, has reached the recommendation
    computed on that pass; the entry pass leaves [restFinished] clear. *)
Theorem station_rest_mode :
  forall (s : FeedbackStation.Globals) (c : FeedbackStation.Cycle),
    stationFlagsOk s ->
    (FeedbackStation.inRestMode s = false ->
     FeedbackStation.inRestMode (FeedbackStation.step s c) = true ->
       userNear (FeedbackStation.distance c) = true /\
       FeedbackStation.restStartTime (FeedbackStation.step s c)
       = FeedbackStation.at_rest_start (FeedbackStation.clock c) /\
       FeedbackStation.totalFocusTime (FeedbackStation.step s c)
       = add32 (FeedbackStation.totalFocusTime s)
               (FeedbackStation.currentFocusMs c
                  (FeedbackStation.atDecision s c)) /\
       FeedbackStation.isPresent (FeedbackStation.step s c) = false) /\
    (FeedbackStation.inRestMode s = true ->
       FeedbackStation.isPresent (FeedbackStation.step s c) = false /\
       FeedbackStation.totalFocusTime (FeedbackStation.step s c)
       = FeedbackStation.totalFocusTime s /\
       FeedbackStation.restStartTime (FeedbackStation.step s c)
       = FeedbackStation.restStartTime s /\
       (FeedbackStation.restFinished (FeedbackStation.step s c) = true <->
        userNear (FeedbackStation.distance c) = false /\
        FeedbackStation.dynamicRestTime (FeedbackStation.step s c)
        <= FeedbackStation.restElapsedMs c s) /\
       (FeedbackStation.restFinished (FeedbackStation.step s c) = false ->
        FeedbackStation.inRestMode (FeedbackStation.step s c) = true)) /\
    (FeedbackStation.inRestMode s = false ->
       (FeedbackStation.inRestMode (FeedbackStation.step s c) = true <->
        userNear (FeedbackStation.distance c) = true /\
        FeedbackStation.calculateRecommendedTime
          (FeedbackStation.lux c) (FeedbackStation.noiseVal c)
          (distanceArg (FeedbackStation.distance c))
        <= FeedbackStation.currentFocusMs c
             (FeedbackStation.atDecision s c)) /\
       (FeedbackStation.inRestMode (FeedbackStation.step s c) = true ->
        FeedbackStation.restFinished (FeedbackStation.step s c) = false) /\
       (FeedbackStation.inRestMode (FeedbackStation.step s c) = false ->
        FeedbackStation.restStartTime (FeedbackStation.step s c)
        = FeedbackStation.restStartTime s)).
Proof.
  intros s c. unfold stationFlagsOk.
  destruct c as [d n l m].
  destruct s as [? ? p bw r f ? ? ? ? ? ? ? ?]. exec_station.
  intros (Hb & Hp & Hr). subst bw.
  destruct r, f, p; cbn in Hp, Hr;
    try solve [exfalso; intuition discriminate];
    destruct (userNear d); exec_station; split_station_ifs; bool_facts;
    (split; [| split]); intros; try discriminate;
    repeat split; intros; try reflexivity; try discriminate;
    bool_facts; intuition (try discriminate; try congruence; try lia).
Qed.

(** A segment of 60 minutes with a recommendation of 60 minutes: the pass
    at 3 600 000 ms enters rest mode and adds the segment to the total, the
    pass one millisecond earlier does not; the rest of 10 minutes is over on
    the pass at 4 200 000 ms that does not see the user. *)
Lemma station_rest_mode_witness :
  FeedbackStation.totalFocusTime
    (FeedbackStation.step
       (FeedbackStation.step FeedbackStation.initial
          (FeedbackStation.pass 50 100 500 0))
       (FeedbackStation.pass 50 100 500 3600000)) = 3600000 /\
  FeedbackStation.restFinished
    (FeedbackStation.step
       (FeedbackStation.step
          (FeedbackStation.step FeedbackStation.initial
             (FeedbackStation.pass 50 100 500 0))
          (FeedbackStation.pass 50 100 500 3600000))
       (FeedbackStation.pass 0 100 500 4200000)) = true /\
  FeedbackStation.inRestMode
    (FeedbackStation.step
       (FeedbackStation.step FeedbackStation.initial
          (FeedbackStation.pass 50 100 500 0))
       (FeedbackStation.pass 50 100 500 3600000)) = true /\
  FeedbackStation.inRestMode
    (FeedbackStation.step
       (FeedbackStation.step FeedbackStation.initial
          (FeedbackStation.pass 50 100 500 0))
       (FeedbackStation.pass 50 100 500 3599999)) <> true.
Proof.
  pose proof (station_rest_mode
                (FeedbackStation.step FeedbackStation.initial
                   (FeedbackStation.pass 50 100 500 0))
                (FeedbackStation.pass 50 100 500 3600000)
                (stationReachable_flags _
                   (stationReachable_step _ _ stationReachable_initial)))
    as (Hentry & _ & Hguard).
  pose proof (station_rest_mode
                (FeedbackStation.step FeedbackStation.initial
                   (FeedbackStation.pass 50 100 500 0))
                (FeedbackStation.pass 50 100 500 3599999)
                (stationReachable_flags _
                   (stationReachable_step _ _ stationReachable_initial)))
    as (_ & _ & Hbelow).
  pose proof (station_rest_mode
                (FeedbackStation.step
                   (FeedbackStation.step FeedbackStation.initial
                      (FeedbackStation.pass 50 100 500 0))
                   (FeedbackStation.pass 50 100 500 3600000))
                (FeedbackStation.pass 0 100 500 4200000)
                (stationReachable_flags _
                   (stationReachable_step _ _
                      (stationReachable_step _ _ stationReachable_initial))))
    as (_ & Hrest & _).
  assert (Hin : FeedbackStation.inRestMode
                  (FeedbackStation.step
                     (FeedbackStation.step FeedbackStation.initial
                        (FeedbackStation.pass 50 100 500 0))
                     (FeedbackStation.pass 50 100 500 3600000)) = true).
  { apply (proj1 (Hguard eq_refl)).
    split; [reflexivity | vm_compute; discriminate]. }
  split; [| split; [| split; [exact Hin |]]].
  - apply (Hentry eq_refl Hin).
  - apply (Hrest eq_refl).
    split; [reflexivity | vm_compute; discriminate].
  - intros Hc. apply (proj1 (Hbelow eq_refl)) in Hc.
    destruct Hc as [_ Hc]. vm_compute in Hc. apply Hc. reflexivity.
Defined.


(** The rate limit of the Feedback Station's [safeSetStatusColor]: on a
    pass whose clock reads are less than a second apart, at most one color
    is pushed to the status strip, whatever the calls ask for. *)
Theorem station_one_status_push_per_pass :
  forall (s : FeedbackStation.Globals) (c : FeedbackStation.Cycle),
    stationQuickPass c ->
    (length (filter isStatusShow (FeedbackStation.outputs s c)) <= 1)%nat.
Proof.
  intros s c. unfold stationQuickPass.
  destruct c as [d n l [t1 t2 t3 t4 t5 t6 t7 t8 t9 t10 t11]].
  destruct s as [? ? p bw r f ? ? ? ? ? ? ? ?]. exec_station.
  intros (H1 & H2 & H3 & H4).
  apply Z.ltb_lt in H1, H2, H3, H4.
  destruct r, f, p, (userNear d), (userTooClose d); exec_station;
    repeat (first [ rewrite H1 | rewrite H2 | rewrite H3 | rewrite H4
                  | split_station_if ]; exec_station);
    cbn [length]; lia.
Qed.

Lemma station_one_status_push_per_pass_witness :
  (length (filter isStatusShow
             (FeedbackStation.outputs
                (FeedbackStation.step FeedbackStation.initial
                   (FeedbackStation.pass 50 100 500 5000))
                (FeedbackStation.pass 50 100 500 3700000))) <= 1)%nat.
Proof.
  apply station_one_status_push_per_pass.
  unfold stationQuickPass. repeat split; vm_compute; reflexivity.
Defined.

(** The red lock on entering rest mode is subject to the rate limit: on the
    pass that enters rest mode the strip ends red exactly when it was red
    already or one of the two calls reads a clock at least a second after
    the last color change; otherwise the color stays as it was.  In rest
    mode a pass that reads a clock at least a second after the last change
    and does not end the rest leaves the strip red. *)
Theorem station_red_lock :
  forall (s : FeedbackStation.Globals) (c : FeedbackStation.Cycle),
    (FeedbackStation.inRestMode s = false ->
     FeedbackStation.inRestMode (FeedbackStation.step s c) = true ->
       (FeedbackStation.lastColor (FeedbackStation.step s c) = (40, 0, 0) <->
        FeedbackStation.lastColor s = (40, 0, 0) \/
        1000 <= sub32 (FeedbackStation.at_color_lock (FeedbackStation.clock c))
                      (FeedbackStation.lastColorChangeTime s) \/
        1000 <= sub32 (FeedbackStation.at_color_rest (FeedbackStation.clock c))
                      (FeedbackStation.lastColorChangeTime s)) /\
       (FeedbackStation.lastColor (FeedbackStation.step s c) <> (40, 0, 0) ->
        FeedbackStation.lastColor (FeedbackStation.step s c)
        = FeedbackStation.lastColor s)) /\
    (FeedbackStation.inRestMode s = true ->
     FeedbackStation.inRestMode (FeedbackStation.step s c) = true ->
     1000 <= sub32 (FeedbackStation.at_color_rest (FeedbackStation.clock c))
                   (FeedbackStation.lastColorChangeTime s) ->
       FeedbackStation.lastColor (FeedbackStation.step s c) = (40, 0, 0)).
Proof.
  intros s c.
  destruct c as [d n l [t1 t2 t3 t4 t5 t6 t7 t8 t9 t10 t11]].
  destruct s as [? ? p bw r f ? ? ? lc lr lg lb ?]. exec_station.
  split.
  - intros ->. exec_station.
    destruct (userNear d), p; exec_station; split_station_ifs;
      intros Hin; try discriminate Hin;
      bool_facts; subst;
      (split; [split; intros Hc | intros Hc]);
      try reflexivity;
      try (exfalso; apply Hc; reflexivity);
      auto; try lia;
      try (destruct Hc as [Hc | [Hc | Hc]]; [exact Hc | lia | lia]).
  - intros ->. exec_station.
    destruct (userNear d), p; exec_station; split_station_ifs;
      intros Hin Hge; try discriminate Hin;
      bool_facts; subst; try reflexivity; lia.
Qed.

(** The color changed to yellow half a second before the segment reached
    the recommended time: the pass enters rest mode and the strip is still
    yellow. *)
Lemma station_red_lock_witness :
  FeedbackStation.inRestMode
    (FeedbackStation.step
       (FeedbackStation.step
          (FeedbackStation.step FeedbackStation.initial
             (FeedbackStation.pass 50 100 500 5000))
          (FeedbackStation.pass 50 400 500 3604500))
       (FeedbackStation.pass 50 400 500 3605000)) = true /\
  FeedbackStation.lastColor
    (FeedbackStation.step
       (FeedbackStation.step
          (FeedbackStation.step FeedbackStation.initial
             (FeedbackStation.pass 50 100 500 5000))
          (FeedbackStation.pass 50 400 500 3604500))
       (FeedbackStation.pass 50 400 500 3605000)) = (40, 40, 0).
Proof.
  split; [reflexivity |].
  apply (proj2 (proj1 (station_red_lock
           (FeedbackStation.step
              (FeedbackStation.step FeedbackStation.initial
                 (FeedbackStation.pass 50 100 500 5000))
              (FeedbackStation.pass 50 400 500 3604500))
           (FeedbackStation.pass 50 400 500 3605000))
          eq_refl eq_refl)).
  vm_compute. discriminate.
Defined.


(** ** Demo sketch *)

Ltac exec_demo :=
  cbv beta iota zeta delta
    [Demo.step Demo.outputs Demo.loop Demo.restMode Demo.warningState
     Demo.focusMode Demo.presenceUpdate Demo.currentFocus
     Demo.statusDecision Demo.safeSetStatusColor Demo.setEnvironmentLight
     demoWithEnvironment
     andThen when ifte assign emit skip fst snd app filter
     isStatusShow isEnvShow
     Demo.isPresent Demo.inRestMode Demo.waitingForUserToLeave
     Demo.focusStartTime Demo.restStartTime Demo.absenceStartTime
     Demo.set_isPresent Demo.set_inRestMode Demo.set_waitingForUserToLeave
     Demo.set_focusStartTime Demo.set_restStartTime
     Demo.set_absenceStartTime
     Demo.distance Demo.noiseVal Demo.lux Demo.clock];
  cbn [negb andb orb].

Ltac split_demo_ifs :=
  repeat match goal with
  | |- context [if ?b then _ else _] =>
      lazymatch b with
      | context [if _ then _ else _] => fail
      | _ => let E := fresh "E" in destruct b eqn:E; exec_demo
      end
  end.

(** In the demo the light and noise sensors drive the strips only: the
    globals after a pass do not depend on the lux and noise readings. *)
Theorem demo_timing_ignores_environment :
  forall (s : Demo.Globals) (c : Demo.Cycle) (l : Q) (n : Z),
    Demo.step s (demoWithEnvironment l n c) = Demo.step s c.
Proof.
  intros s c l n.
  destruct c as [d n0 l0 m].
  destruct s as [p r w ? ? ?]. exec_demo.
  destruct r, w, p, (userNear d); exec_demo; split_demo_ifs; reflexivity.
Qed.

(** The status decision of the demo is not guarded by [isPresent]: a pass
    of the focus mode that does not enter the warning state and reads an
    invalid distance pushes (0,0,0) to the status strip, then the room
    light by the lux, and nothing else. *)
Theorem demo_invalid_distance_turns_status_off :
  forall (s : Demo.Globals) (c : Demo.Cycle),
    Demo.inRestMode s = false -> Demo.waitingForUserToLeave s = false ->
    validDistance (Demo.distance c) = false ->
    Demo.outputs s c = [StatusShow 0 0 0; EnvShow (tooDark (Demo.lux c))] /\
    Demo.isPresent (Demo.step s c) = false /\
    Demo.waitingForUserToLeave (Demo.step s c) = false.
Proof.
  intros s c Hr Hw Hv.
  pose proof (invalid_not_near _ Hv) as Hn. revert Hr Hw Hv Hn.
  destruct c as [d n l m].
  destruct s as [p r w ? ? ?]. exec_demo.
  intros -> -> -> ->. exec_demo.
  destruct p; exec_demo; repeat split; reflexivity.
Qed.

Lemma demo_invalid_distance_turns_status_off_witness :
  Demo.outputs (Demo.step Demo.initial (Demo.pass 50 100 500 0))
    (Demo.pass 0 100 500 1000)
  = [StatusShow 0 0 0; EnvShow false].
Proof.
  apply (demo_invalid_distance_turns_status_off
           (Demo.step Demo.initial (Demo.pass 50 100 500 0))
           (Demo.pass 0 100 500 1000)); reflexivity.
Defined.

(** The demo does not clear [isPresent] when it enters the warning state,
    and neither the warning state nor the rest mode touches [isPresent] or
    [focusStartTime]. *)
Lemma demo_break_keeps_segment (s : Demo.Globals) (c : Demo.Cycle) :
  Demo.inRestMode s = true \/ Demo.waitingForUserToLeave s = true ->
  Demo.isPresent (Demo.step s c) = Demo.isPresent s /\
  Demo.focusStartTime (Demo.step s c) = Demo.focusStartTime s.
Proof.
  destruct c as [d n l m].
  destruct s as [p r w ? ? ?]. exec_demo.
  destruct r, w; exec_demo; intros [H | H]; try discriminate H;
    destruct (userNear d); exec_demo; split_demo_ifs; split; reflexivity.
Qed.

(** The stale segment of the demo.  The pass that enters the warning state
    leaves [isPresent] set, and the warning state and the rest mode keep it
    with the old [focusStartTime].  So when the rest is over and the next
    pass sees the user, no new segment begins: the old one is measured, and
    if it is a minute old the demo is back in the warning state at once. *)
Theorem demo_return_after_rest_warns_again :
  forall (s : Demo.Globals) (c : Demo.Cycle),
    (Demo.inRestMode s = false -> Demo.waitingForUserToLeave s = false ->
     Demo.waitingForUserToLeave (Demo.step s c) = true ->
       Demo.isPresent (Demo.step s c) = true) /\
    (Demo.inRestMode s = true \/ Demo.waitingForUserToLeave s = true ->
       Demo.isPresent (Demo.step s c) = Demo.isPresent s /\
       Demo.focusStartTime (Demo.step s c) = Demo.focusStartTime s) /\
    (Demo.inRestMode s = false -> Demo.waitingForUserToLeave s = false ->
     Demo.isPresent s = true -> userNear (Demo.distance c) = true ->
     Demo.FIXED_FOCUS_TIME
     <= sub32 (Demo.at_current_focus (Demo.clock c)) (Demo.focusStartTime s) ->
       Demo.waitingForUserToLeave (Demo.step s c) = true /\
       Demo.outputs s c = [StatusShow 40 0 0]).
Proof.
  intros s c. split; [| split; [apply demo_break_keeps_segment |]].
  - destruct c as [d n l m].
    destruct s as [p r w ? ? ?]. exec_demo.
    intros -> ->. exec_demo.
    destruct p, (userNear d); exec_demo; split_demo_ifs;
      intros H; try discriminate H; reflexivity.
  - destruct c as [d n l m].
    destruct s as [p r w ? ? ?]. exec_demo.
    intros -> -> -> -> Hle. exec_demo.
    apply Z.leb_le in Hle. rewrite Hle. exec_demo. split; reflexivity.
Qed.

(** One minute of focus, warning, two seconds away, one minute of rest,
    rest over; the user is back on the next pass and the demo warns at
    once. *)
Lemma demo_return_after_rest_warns_again_witness :
  Demo.inRestMode
    (Demo.step
       (Demo.step
          (Demo.step (Demo.step Demo.initial (Demo.pass 50 100 500 0))
             (Demo.pass 50 100 500 60000))
          (Demo.pass 0 100 500 62000))
       (Demo.pass 0 100 500 122000)) = false /\
  Demo.waitingForUserToLeave
    (Demo.step
       (Demo.step
          (Demo.step
             (Demo.step (Demo.step Demo.initial (Demo.pass 50 100 500 0))
                (Demo.pass 50 100 500 60000))
             (Demo.pass 0 100 500 62000))
          (Demo.pass 0 100 500 122000))
       (Demo.pass 50 100 500 122300)) = true.
Proof.
  split; [reflexivity |].
  apply (proj2 (proj2 (demo_return_after_rest_warns_again
           (Demo.step
              (Demo.step
                 (Demo.step (Demo.step Demo.initial (Demo.pass 50 100 500 0))
                    (Demo.pass 50 100 500 60000))
                 (Demo.pass 0 100 500 62000))
              (Demo.pass 0 100 500 122000))
           (Demo.pass 50 100 500 122300)))).
  - reflexivity.
  - reflexivity.
  - reflexivity.
  - reflexivity.
  - vm_compute. discriminate.
Defined.


(** ** Flags of the Focus/Rest sketch *)

(** In every state the Focus/Rest sketch reaches, at most one of
    [isPresent], [waitingForUserToLeave], [inRestMode], [restFinished] is
    set: the four flags encode one phase.  A pass keeps this, from any
    globals that have it. *)
Theorem flags_encode_one_phase :
  (forall s : Globals, reachable s -> exclusiveFlags s) /\
  (forall (s : Globals) (c : Cycle),
      exclusiveFlags s -> exclusiveFlags (step s c)).
Proof.
  split; [exact reachable_exclusiveFlags | exact exclusiveFlags_step].
Qed.

Lemma flags_encode_one_phase_witness :
  exclusiveFlags (run initial [pass 50 100 500 0; pass 50 100 500 3600000;
                               pass 0 100 500 3602000]) /\
  inRestMode (run initial [pass 50 100 500 0; pass 50 100 500 3600000;
                           pass 0 100 500 3602000]) = true.
Proof.
  split; [| reflexivity].
  apply (proj1 flags_encode_one_phase).
  apply (reachable_step _ (pass 0 100 500 3602000)),
    (reachable_step _ (pass 50 100 500 3600000)),
    (reachable_step _ (pass 50 100 500 0)), reachable_initial.
Defined.


(** A dark and loud room gives the longest rest, a bright and quiet one the
    shortest. *)
Lemma rest_time_is_10_to_25_minutes_witness :
  restMinutes (inject_Z 50) 700 = 25 /\
  restMinutes (inject_Z 200) 100 = 10.
Proof.
  split.
  - apply (proj2 (proj1 (proj2
             (rest_time_is_10_to_25_minutes (inject_Z 50) 700)))).
    split; reflexivity.
  - apply (proj2 (proj1 (proj2 (proj2
             (rest_time_is_10_to_25_minutes (inject_Z 200) 100))))).
    split; reflexivity.
Defined.
